(** * Interactive placement dashboard: CSV ingestion, column sniffing,
      metrics and insight catalogue

    A shallow embedding of the data-transformation code of the dashboard
    (TypeScript/React) together with the properties its specification
    states about it.

    Source map:
    - [Csv]               : [parseCSV] of the file-upload component (second
                            unit of client/components/ui/data-table.tsx);
    - [Dashboard]         : [metrics] and [getChartConfig] of
                            client/pages/Index.tsx;
    - [AcademicDashboard] : [getChartConfig] of the academic dashboard
                            (unnamed/part_002, whose [metrics] is that of
                            Index.tsx);
    - [PackageMetrics]    : the salary/company [metrics] (unnamed/part_001);
    - [AcademicInsights]  : [generateInsights] of
                            client/components/ui/ai-insights.tsx;
    - [PlacementInsights] : [generateInsights] of unnamed/part_000.

    JavaScript values are modelled as the code uses them: strings are
    sequences of UTF-16 code units, restricted here to the code units below
    256 (one [ascii] each); Numbers are IEEE-754 binary64 values, i.e. Rocq's
    primitive floats; array lengths and counters are natural numbers, turned
    into Numbers where they enter arithmetic; plain objects are
    insertion-ordered lists of own properties. *)

From Stdlib Require Import Bool Arith ZArith Lia List Ascii String Floats Permutation Sorted.
Import ListNotations.

Set Warnings "-inexact-float".

Local Open Scope string_scope.
Local Open Scope list_scope.
Local Open Scope nat_scope.

(* ================================================================== *)
(** * Part I: the embedding *)
(* ================================================================== *)

(** ** JavaScript strings *)

Module JSString.

Definition LF : ascii := "010"%char.
Definition CR : ascii := "013"%char.
Definition comma : ascii := ","%char.
Definition dquote : ascii := "034"%char.

(** [WhiteSpace] and [LineTerminator] of ECMAScript, below code unit 256:
    TAB, LF, VT, FF, CR, SP and NBSP.  This is what [trim] strips. *)
Definition isWhiteSpace (c : ascii) : bool :=
  let n := nat_of_ascii c in
  ((9 <=? n) && (n <=? 13)) || (n =? 32) || (n =? 160).

Definition isEmpty (s : string) : bool :=
  match s with EmptyString => true | String _ _ => false end.

(** A string is truthy when it is not empty. *)
Definition truthy (s : string) : bool := negb (isEmpty s).

Fixpoint trimStart (s : string) : string :=
  match s with
  | EmptyString => EmptyString
  | String c r => if isWhiteSpace c then trimStart r else s
  end.

Fixpoint trimEnd (s : string) : string :=
  match s with
  | EmptyString => EmptyString
  | String c r =>
      let r' := trimEnd r in
      if isWhiteSpace c && isEmpty r' then EmptyString else String c r'
  end.

(** [String.prototype.trim]. *)
Definition trim (s : string) : string := trimEnd (trimStart s).

(** [toLowerCase] on one code unit: A-Z, and the Latin-1 capitals
    U+00C0..U+00DE without the multiplication sign U+00D7. *)
Definition lowerChar (c : ascii) : ascii :=
  let n := nat_of_ascii c in
  if ((65 <=? n) && (n <=? 90))
     || ((192 <=? n) && (n <=? 222) && negb (n =? 215))
  then ascii_of_nat (n + 32) else c.

(** [String.prototype.toLowerCase]. *)
Fixpoint toLowerCase (s : string) : string :=
  match s with
  | EmptyString => EmptyString
  | String c r => String (lowerChar c) (toLowerCase r)
  end.

(** [s.split(sep)] for a one-character separator: never empty, the empty
    string splits into one empty piece. *)
Fixpoint split (sep : ascii) (s : string) : list string :=
  match s with
  | EmptyString => [EmptyString]
  | String c r =>
      if Ascii.eqb c sep then EmptyString :: split sep r
      else match split sep r with
           | piece :: pieces => String c piece :: pieces
           | [] => [String c EmptyString]
           end
  end.

(** [s.replace(/c/g, empty)]: every occurrence of [c] removed. *)
Fixpoint removeAll (c : ascii) (s : string) : string :=
  match s with
  | EmptyString => EmptyString
  | String d r => if Ascii.eqb d c then removeAll c r else String d (removeAll c r)
  end.

(** [s.startsWith(p)]. *)
Fixpoint startsWith (p s : string) : bool :=
  match p, s with
  | EmptyString, _ => true
  | String _ _, EmptyString => false
  | String a p', String b s' => Ascii.eqb a b && startsWith p' s'
  end.

(** [s.includes(needle)]. *)
Fixpoint includes (needle s : string) : bool :=
  startsWith needle s ||
  match s with
  | EmptyString => false
  | String _ r => includes needle r
  end.

(** Lines of a text given one by one, each ended by a line feed. *)
Definition unlines (ls : list string) : string :=
  fold_right (fun l acc => (l ++ String LF acc)%string) EmptyString ls.

End JSString.

(** ** JavaScript values read from a record: [undefined] or a string *)

Module JSValue.
Import JSString.

(** [None] is [undefined]. *)
Definition value := option string.

Definition truthy (v : value) : bool :=
  match v with
  | Some s => JSString.truthy s
  | None => false
  end.

(** [a || b]. *)
Definition or (a b : value) : value := if truthy a then a else b.

End JSValue.

(** ** Plain objects with string-valued own properties *)

Module JSObject.
Import JSString.

(** Own properties in insertion order; a key occurs at most once in an
    object built by [assign] from the empty object. *)
Definition object := list (string * string).

Definition empty : object := [].

Fixpoint define (o : object) (k v : string) : object :=
  match o with
  | [] => [(k, v)]
  | (k', v') :: rest =>
      if String.eqb k' k then (k', v) :: rest else (k', v') :: define rest k v
  end.

(** [o[k] = v] for a string [v] on an object created by [{}]: the key
    [__proto__] reaches the prototype setter, which ignores a string, so no
    own property is created; any other key creates or overwrites an own
    property, keeping its place if it exists. *)
Definition assign (o : object) (k v : string) : object :=
  if String.eqb k "__proto__" then o else define o k v.

(** [o.k] / [o[k]] for the property names the program reads (none of them
    is inherited from [Object.prototype]). *)
Fixpoint prop (o : object) (k : string) : JSValue.value :=
  match o with
  | [] => None
  | (k', v) :: rest => if String.eqb k' k then Some v else prop rest k
  end.

Definition isDigit (c : ascii) : bool :=
  let n := nat_of_ascii c in (48 <=? n) && (n <=? 57).

Fixpoint allDigits (s : string) : bool :=
  match s with
  | EmptyString => true
  | String c r => isDigit c && allDigits r
  end.

Fixpoint decimalValue (acc : N) (s : string) : N :=
  match s with
  | EmptyString => acc
  | String c r => decimalValue (10 * acc + (N_of_ascii c - 48)) r
  end.

(** An array index: the canonical decimal form of an integer in
    [0, 2^32 - 2]. *)
Definition arrayIndex (k : string) : option N :=
  match k with
  | EmptyString => None
  | String c r =>
      if allDigits k && (negb (Ascii.eqb c "0"%char) || isEmpty r)
      then let n := decimalValue 0 k in
           if N.leb n 4294967294 then Some n else None
      else None
  end.

Definition isArrayIndex (k : string) : bool :=
  match arrayIndex k with Some _ => true | None => false end.

Fixpoint insertIndex (n : N) (k : string) (l : list (N * string)) : list (N * string) :=
  match l with
  | [] => [(n, k)]
  | (m, k') :: rest =>
      if N.leb n m then (n, k) :: l else (m, k') :: insertIndex n k rest
  end.

Definition sortIndices (l : list (N * string)) : list (N * string) :=
  fold_right (fun '(n, k) acc => insertIndex n k acc) [] l.

Definition indexKeys (ks : list string) : list (N * string) :=
  flat_map (fun k => match arrayIndex k with Some n => [(n, k)] | None => [] end) ks.

(** [Object.keys(o)]: array-index keys in ascending numeric order, then the
    other keys in insertion order. *)
Definition keys (o : object) : list string :=
  let ks := map fst o in
  map snd (sortIndices (indexKeys ks)) ++ filter (fun k => negb (isArrayIndex k)) ks.

End JSObject.

(** ** The CSV parser (file-upload component) *)

Module Csv.
Import JSString JSObject.

(** A record of the dataset and the dataset itself. *)
Definition record := object.
Definition dataset := list record.

(** [line.split(comma).map(v => v.trim().replace(/dquote/g, empty))]. *)
Definition cells (line : string) : list string :=
  map (fun v => removeAll dquote (trim v)) (split comma line).

(** [values[index] || empty]. *)
Definition valueAt (values : list string) (index : nat) : string :=
  match JSValue.or (nth_error values index) (Some EmptyString) with
  | Some v => v
  | None => EmptyString
  end.

(** [headers.reduce((obj, header, index) => { obj[header] = values[index] || empty;
    return obj; }, {})], the accumulator paired with the running index. *)
Definition zipRow (headers values : list string) : record :=
  fst (fold_left
         (fun '(obj, index) header => (assign obj header (valueAt values index), S index))
         headers (empty, 0)).

(** [text.split(LF).filter(line => line.trim())]. *)
Definition nonBlankLines (text : string) : list string :=
  filter (fun line => truthy (trim line)) (split LF text).

Definition parseCSV (text : string) : dataset :=
  let lines := nonBlankLines text in
  match lines with
  | [] => []
  | first :: rest =>
      let headers := cells first in
      map (fun line => zipRow headers (cells line)) rest
  end.

End Csv.

(** ** JavaScript Numbers *)

Module JSNumber.
Import JSString JSObject.

(** A Number is an IEEE-754 binary64 value. *)
Definition number := float.

Definition isNaN (x : number) : bool := PrimFloat.is_nan x.

(** The Number of an array length or of a counter. *)
Definition Num (n : nat) : number :=
  SF2Prim (binary_normalize prec emax (Z.of_nat n) 0 false).

(** The Number nearest to [d * 10^e] (ties to even) for a decimal literal
    of [len] digits and value [d]; the first tests only keep the powers of
    ten small: [10^309] is above the largest finite Number, and a value
    below [10^-324] is below half the smallest positive one. *)
Definition roundDecimal (neg : bool) (d len e : Z) : spec_float :=
  (if d =? 0 then S754_zero neg
   else if 309 <=? e then S754_infinity neg
   else if e + len <? -324 then S754_zero neg
   else if 0 <=? e then binary_normalize prec emax (cond_Zopp neg (d * 10 ^ e)) 0 neg
   else SFdiv prec emax (S754_finite neg (Z.to_pos d) 0)
                        (S754_finite false (Z.to_pos (10 ^ (- e))) 0))%Z.

(** The longest prefix of decimal digits, and what follows it. *)
Fixpoint takeDigits (s : string) : string * string :=
  match s with
  | EmptyString => (EmptyString, EmptyString)
  | String c r =>
      if isDigit c then let '(ds, rest) := takeDigits r in (String c ds, rest)
      else (EmptyString, s)
  end.

Definition takeSign (s : string) : bool * string :=
  match s with
  | String "-"%char r => (true, r)
  | String "+"%char r => (false, r)
  | _ => (false, s)
  end.

Definition digitsValue (ds : string) : Z := Z.of_N (decimalValue 0 ds).

(** The exponent part [e], [E] with an optional sign and at least one
    digit; anything else is no exponent part. *)
Definition exponentPart (s : string) : Z :=
  match s with
  | String c r =>
      if Ascii.eqb c "e"%char || Ascii.eqb c "E"%char then
        let '(eneg, r') := takeSign r in
        let '(ed, _) := takeDigits r' in
        if isEmpty ed then 0%Z else cond_Zopp eneg (digitsValue ed)
      else 0%Z
  | EmptyString => 0%Z
  end.

(** [parseFloat]: leading white space skipped, then the longest prefix
    that is a [StrDecimalLiteral]; [NaN] when there is none. *)
Definition parseFloat (s : string) : number :=
  let '(neg, s1) := takeSign (trimStart s) in
  if startsWith "Infinity" s1 then (if neg then neg_infinity else infinity)
  else
    let '(ip, r1) := takeDigits s1 in
    let '(fp, r2) :=
      match r1 with
      | String "."%char r => takeDigits r
      | _ => (EmptyString, r1)
      end in
    if isEmpty ip && isEmpty fp then nan
    else
      let ds := (ip ++ fp)%string in
      SF2Prim (roundDecimal neg (digitsValue ds) (Z.of_nat (String.length ds))
                 (exponentPart r2 - Z.of_nat (String.length fp))).

End JSNumber.

(** ** Recording the divisions a computation performs

    Every division of the program divides by an array length or by a
    counter, so a division is recorded with its dividend and that count. *)

Module Traced.
Import JSNumber.

Record division := { dividend : number; divisor : nat }.

Definition M (A : Type) : Type := (A * list division)%type.

Definition ret {A : Type} (a : A) : M A := (a, []).

Definition bind {A B : Type} (m : M A) (k : A -> M B) : M B :=
  let '(a, t) := m in let '(b, t') := k a in (b, t ++ t').

(** [x / n], recorded. *)
Definition divide (x : number) (n : nat) : M number :=
  ((x / Num n)%float, [{| dividend := x; divisor := n |}]).

Definition result {A : Type} (m : M A) : A := fst m.
Definition divisions {A : Type} (m : M A) : list division := snd m.

End Traced.

Notation "x <- c1 ;; c2" := (Traced.bind c1 (fun x => c2))
  (at level 61, c1 at next level, right associativity).

(** ** A JavaScript [Set]: distinct elements in insertion order *)

Module JSSet.

Section Elements.
Variable A : Type.
Variable eqb : A -> A -> bool.

Definition has (s : list A) (x : A) : bool := existsb (eqb x) s.

Definition add (s : list A) (x : A) : list A := if has s x then s else s ++ [x].

(** [new Set(xs)]. *)
Definition ofList (xs : list A) : list A := fold_left add xs [].

Definition size (s : list A) : nat := List.length s.

End Elements.

Arguments has {A} eqb s x.
Arguments add {A} eqb s x.
Arguments ofList {A} eqb xs.
Arguments size {A} s.

Definition valueEqb (a b : JSValue.value) : bool :=
  match a, b with
  | Some x, Some y => String.eqb x y
  | None, None => true
  | _, _ => false
  end.

End JSSet.

(** ** The dashboard page: metrics and chart configuration (Index.tsx) *)

Module Dashboard.
Import JSString JSObject JSNumber Csv Traced.

Record MetricsSummary := {
  totalStudents : nat;
  placedStudents : nat;
  placementRate : number;
  averageCGPA : number;
  withInternship : nat;
  internshipRate : number
}.

(** [student.Placement || student.Placed || student.Status]. *)
Definition placementOf (student : record) : JSValue.value :=
  JSValue.or (JSValue.or (prop student "Placement") (prop student "Placed"))
             (prop student "Status").

(** The predicate of the [placedStudents] filter. *)
Definition isPlaced (student : record) : bool :=
  match placementOf student with
  | Some placement =>
      truthy placement &&
      (String.eqb (toLowerCase placement) "placed"
       || String.eqb (toLowerCase placement) "yes"
       || String.eqb placement "1")
  | None => false
  end.

(** [student.CGPA || student.cgpa]. *)
Definition cgpaOf (student : record) : JSValue.value :=
  JSValue.or (prop student "CGPA") (prop student "cgpa").

(** One turn of the [forEach] that accumulates [totalCGPA] and
    [cgpaCount]. *)
Definition cgpaStep (acc : number * nat) (student : record) : number * nat :=
  let '(totalCGPA, cgpaCount) := acc in
  match cgpaOf student with
  | Some cgpa =>
      if truthy cgpa && negb (isNaN (parseFloat cgpa))
      then ((totalCGPA + parseFloat cgpa)%float, S cgpaCount)
      else acc
  | None => acc
  end.

(** [student['Internship Experience'] || student.Internship || student.internship]. *)
Definition internshipOf (student : record) : JSValue.value :=
  JSValue.or (JSValue.or (prop student "Internship Experience") (prop student "Internship"))
             (prop student "internship").

(** The predicate of the [withInternship] filter. *)
Definition hasInternship (student : record) : bool :=
  match internshipOf student with
  | Some internship =>
      truthy internship &&
      (String.eqb (toLowerCase internship) "yes"
       || String.eqb internship "1"
       || (0 <? parseFloat internship)%float)
  | None => false
  end.

Definition noData : MetricsSummary :=
  {| totalStudents := 0; placedStudents := 0; placementRate := 0%float;
     averageCGPA := 0%float; withInternship := 0; internshipRate := 0%float |}.

(** [count > 0 ? (part / count) * 100 : 0]. *)
Definition percentage (part count : nat) : M number :=
  if 0 <? count then q <- divide (Num part) count ;; ret (q * 100)%float
  else ret 0%float.

(** The body of the [useMemo] that computes [metrics]. *)
Definition metricsTraced (placementData : dataset) : M MetricsSummary :=
  if List.length placementData =? 0 then ret noData
  else
    let totalStudents := List.length placementData in
    let placedStudents := List.length (filter isPlaced placementData) in
    placementRate <- percentage placedStudents totalStudents ;;
    let '(totalCGPA, cgpaCount) := fold_left cgpaStep placementData (0%float, 0) in
    averageCGPA <- (if 0 <? cgpaCount then divide totalCGPA cgpaCount else ret 0%float) ;;
    let withInternship := List.length (filter hasInternship placementData) in
    internshipRate <- percentage withInternship totalStudents ;;
    ret {| totalStudents := totalStudents;
           placedStudents := placedStudents;
           placementRate := placementRate;
           averageCGPA := averageCGPA;
           withInternship := withInternship;
           internshipRate := internshipRate |}.

Definition metrics (placementData : dataset) : MetricsSummary :=
  result (metricsTraced placementData).

(** [keys.find(pred) || fallback]. *)
Definition findKey (pred : string -> bool) (fallback : JSValue.value)
  (keys : list string) : JSValue.value :=
  JSValue.or (find pred keys) fallback.

Definition mentions (needle key : string) : bool :=
  includes needle (toLowerCase key).

Record ChartConfig := { departmentKey : JSValue.value; companyKey : JSValue.value }.

Definition isDepartmentKey (key : string) : bool :=
  mentions "department" key || mentions "branch" key || mentions "course" key.

Definition isCompanyKey (key : string) : bool :=
  mentions "company" key || mentions "employer" key || mentions "organization" key.

(** [getChartConfig] of Index.tsx; [None] is [null]. *)
Definition getChartConfig (placementData : dataset) : option ChartConfig :=
  match placementData with
  | [] => None
  | firstRow :: _ =>
      let keys := JSObject.keys firstRow in
      Some {| departmentKey := findKey isDepartmentKey (nth_error keys 1) keys;
              companyKey := findKey isCompanyKey (nth_error keys 0) keys |}
  end.

End Dashboard.

(** ** The academic chart configuration (unnamed/part_002) *)

Module AcademicDashboard.
Import JSString JSObject Csv Dashboard.

Record ChartConfig := {
  cgpaKey : JSValue.value;
  placementKey : JSValue.value;
  internshipKey : JSValue.value;
  academicPerfKey : JSValue.value
}.

Definition isCgpaKey (key : string) : bool :=
  mentions "cgpa" key || mentions "gpa" key.

Definition isPlacementKey (key : string) : bool :=
  mentions "placement" key || mentions "placed" key.

Definition isInternshipKey (key : string) : bool :=
  mentions "internship" key.

Definition isAcademicPerfKey (key : string) : bool :=
  mentions "academic" key && mentions "performance" key.

(** The role resolution over the keys of the first row. *)
Definition resolveRoles (keys : list string) : ChartConfig :=
  {| cgpaKey := findKey isCgpaKey (Some "CGPA") keys;
     placementKey := findKey isPlacementKey (Some "Placement") keys;
     internshipKey := findKey isInternshipKey (Some "Internship Experience") keys;
     academicPerfKey := findKey isAcademicPerfKey (Some "Academic Performance") keys |}.

(** [getChartConfig] of the academic dashboard; [None] is [null]. *)
Definition getChartConfig (placementData : dataset) : option ChartConfig :=
  match placementData with
  | [] => None
  | firstRow :: _ => Some (resolveRoles (JSObject.keys firstRow))
  end.

End AcademicDashboard.

(** ** The salary/company variant of the metrics (unnamed/part_001) *)

Module PackageMetrics.
Import JSString JSObject JSNumber Csv Traced.

Record MetricsSummary := {
  totalStudents : nat;
  placedStudents : nat;
  placementRate : number;
  averageSalary : number;
  topCompanies : nat
}.

(** [student.Status || student.Placement_Status || student.Placed || student.Company]. *)
Definition statusOf (student : record) : JSValue.value :=
  JSValue.or (JSValue.or (JSValue.or (prop student "Status") (prop student "Placement_Status"))
                         (prop student "Placed"))
             (prop student "Company").

Definition isPlaced (student : record) : bool :=
  match statusOf student with
  | Some status =>
      truthy status
      && negb (String.eqb (toLowerCase status) "not placed")
      && negb (String.eqb (toLowerCase status) "no")
      && negb (String.eqb (trim status) "")
  | None => false
  end.

Definition salaryFields : list string :=
  ["Salary"; "Package"; "CTC"; "Annual_Package"; "Offer_Amount"].

(** The inner [for] over the salary fields: the first field whose value
    parses, then [break]. *)
Fixpoint salaryOf (student : record) (fields : list string) : option number :=
  match fields with
  | [] => None
  | field :: rest =>
      match prop student field with
      | Some salary =>
          if truthy salary && negb (isNaN (parseFloat salary))
          then Some (parseFloat salary)
          else salaryOf student rest
      | None => salaryOf student rest
      end
  end.

Definition salaryStep (acc : number * nat) (student : record) : number * nat :=
  let '(totalSalary, salaryCount) := acc in
  match salaryOf student salaryFields with
  | Some salary => ((totalSalary + salary)%float, S salaryCount)
  | None => acc
  end.

Definition companyFields : list string :=
  ["Company"; "Employer"; "Organization"; "Company_Name"].

(** The test a company value passes before it is added. *)
Definition acceptsCompany (company : string) : bool :=
  truthy company
  && negb (String.eqb (trim company) "")
  && negb (String.eqb (toLowerCase company) "not placed").

(** The inner [for] over the company fields: the first field whose value
    passes the test gives the element added, [company.trim()], then
    [break]. *)
Fixpoint companyOf (student : record) (fields : list string) : option string :=
  match fields with
  | [] => None
  | field :: rest =>
      match prop student field with
      | Some company =>
          if acceptsCompany company then Some (trim company)
          else companyOf student rest
      | None => companyOf student rest
      end
  end.

Definition companyStep (companies : list string) (student : record) : list string :=
  match companyOf student companyFields with
  | Some company => JSSet.add String.eqb companies company
  | None => companies
  end.

Definition noData : MetricsSummary :=
  {| totalStudents := 0; placedStudents := 0; placementRate := 0%float;
     averageSalary := 0%float; topCompanies := 0 |}.

Definition metricsTraced (placementData : dataset) : M MetricsSummary :=
  if List.length placementData =? 0 then ret noData
  else
    let totalStudents := List.length placementData in
    let placedStudents := List.length (filter isPlaced placementData) in
    placementRate <- Dashboard.percentage placedStudents totalStudents ;;
    let '(totalSalary, salaryCount) := fold_left salaryStep placementData (0%float, 0) in
    averageSalary <- (if 0 <? salaryCount then divide totalSalary salaryCount else ret 0%float) ;;
    let companies := fold_left companyStep placementData [] in
    ret {| totalStudents := totalStudents;
           placedStudents := placedStudents;
           placementRate := placementRate;
           averageSalary := averageSalary;
           topCompanies := JSSet.size companies |}.

Definition metrics (placementData : dataset) : MetricsSummary :=
  result (metricsTraced placementData).

End PackageMetrics.

(** ** Insight records *)

Module Insights.
Import JSNumber.

Inductive InsightType := trend | recommendation | prediction | anomaly.
Inductive Impact := high | medium | low.

(** A description is a template literal: literal text and interpolated
    values, each kept with the formatting call applied to it. *)
Inductive piece :=
| Text (s : string)
| ToFixed (x : number) (fractionDigits : nat)
| Size (n : nat).

Record Insight := {
  id : string;
  type : InsightType;
  title : string;
  description : list piece;
  confidence : number;
  impact : Impact
}.

(** The Numbers interpolated into a description. *)
Definition interpolated (i : Insight) : list number :=
  flat_map (fun p => match p with ToFixed x _ => [x] | _ => [] end) (description i).

(** [data.find(record => Object.keys(record).some(pred))]. *)
Definition findRecord (pred : string -> bool) (data : Csv.dataset) : option Csv.record :=
  find (fun record => existsb pred (JSObject.keys record)) data.

End Insights.

(** ** The insight generator of the academic dashboard (ai-insights.tsx) *)

Module AcademicInsights.
Import JSString JSObject JSNumber Csv Traced Insights.

Definition mentions := Dashboard.mentions.

Definition isCgpaKey (key : string) : bool := mentions "cgpa" key || mentions "gpa" key.
Definition isInternshipKey (key : string) : bool := mentions "internship" key.
Definition isAcademicPerfKey (key : string) : bool :=
  mentions "academic" key && mentions "performance" key.
Definition isCommunicationKey (key : string) : bool := mentions "communication" key.
Definition isProjectKey (key : string) : bool := mentions "project" key.
Definition isIqKey (key : string) : bool := mentions "iq" key.
Definition isExtraCurricularKey (key : string) : bool :=
  mentions "extra" key || mentions "curricular" key.

(** [record.Placement || record.Placed], then the test on it. *)
Definition isPlaced (record : record) : bool :=
  match JSValue.or (prop record "Placement") (prop record "Placed") with
  | Some placement =>
      truthy placement &&
      (String.eqb (toLowerCase placement) "placed" || String.eqb placement "1")
  | None => false
  end.

(** [parseFloat(record.CGPA || record.cgpa || "0")]. *)
Definition cgpaNumber (record : record) : number :=
  match JSValue.or (JSValue.or (prop record "CGPA") (prop record "cgpa")) (Some "0") with
  | Some text => parseFloat text
  | None => nan
  end.

(** [record["Internship Experience"] || record.Internship], then the test
    on it. *)
Definition hasInternship (record : record) : bool :=
  match JSValue.or (prop record "Internship Experience") (prop record "Internship") with
  | Some internship =>
      truthy internship &&
      (String.eqb (toLowerCase internship) "yes" || (0 <? parseFloat internship)%float)
  | None => false
  end.

Definition cgpaInsight (avgCGPA : number) : Insight :=
  {| id := "1"; type := trend;
     title := "CGPA Impact on Placement Success";
     description :=
       [Text "Students with CGPA above "; ToFixed avgCGPA 1;
        Text " show significantly higher placement rates. Academic performance remains the strongest predictor of placement success."];
     confidence := 0.92%float; impact := high |}.

Definition internshipInsight (internshipPlacementRate : number) : Insight :=
  {| id := "2"; type := recommendation;
     title := "Internship Experience Advantage";
     description :=
       [Text "Students with internship experience show "; ToFixed internshipPlacementRate 0;
        Text "% placement rate. Encourage more students to pursue internships for better outcomes."];
     confidence := 0.85%float; impact := high |}.

Definition performanceInsight (levels : nat) : Insight :=
  {| id := "3"; type := trend;
     title := "Academic Performance Distribution";
     description :=
       [Size levels;
        Text " performance levels identified. Students in higher performance categories show 15-25% better placement outcomes."];
     confidence := 0.8%float; impact := medium |}.

Definition communicationInsight : Insight :=
  {| id := "4"; type := recommendation;
     title := "Communication Skills Development";
     description :=
       [Text "Strong communication skills correlate with 30% higher placement success. Consider implementing soft skills training programs."];
     confidence := 0.78%float; impact := high |}.

Definition projectsInsight : Insight :=
  {| id := "5"; type := prediction;
     title := "Project Portfolio Impact";
     description :=
       [Text "Students with 3+ completed projects show 40% higher placement probability. Practical experience significantly enhances employability."];
     confidence := 0.83%float; impact := high |}.

Definition iqInsight : Insight :=
  {| id := "6"; type := anomaly;
     title := "Holistic Assessment Insight";
     description :=
       [Text "While IQ scores matter, students with balanced profiles (academics + skills + experience) outperform high-IQ students with limited practical exposure."];
     confidence := 0.75%float; impact := medium |}.

Definition extraCurricularInsight : Insight :=
  {| id := "7"; type := recommendation;
     title := "Well-Rounded Development";
     description :=
       [Text "Students with higher extra-curricular scores demonstrate better leadership and teamwork skills, leading to 20% better placement outcomes."];
     confidence := 0.7%float; impact := medium |}.

(** The key test that gates each catalogue entry, by entry id. *)
Definition gates : list (string * (string -> bool)) :=
  [("1", isCgpaKey); ("2", isInternshipKey); ("3", isAcademicPerfKey);
   ("4", isCommunicationKey); ("5", isProjectKey); ("6", isIqKey);
   ("7", isExtraCurricularKey)].

(** A key that some role of the catalogue matches. *)
Definition matchesRole (key : string) : bool :=
  existsb (fun gate => snd gate key) gates.

(** Each block of the timer callback, as a function of the list pushed to
    so far. *)
Definition cgpaBlock (data : dataset) (newInsights : list Insight) : M (list Insight) :=
  match findRecord isCgpaKey data with
  | Some _ =>
      let placedStudents := filter isPlaced data in
      avgCGPA <- divide
                   (fold_left (fun sum record => (sum + cgpaNumber record)%float)
                              placedStudents 0%float)
                   (List.length placedStudents) ;;
      ret (newInsights ++ [cgpaInsight avgCGPA])
  | None => ret newInsights
  end.

Definition internshipBlock (data : dataset) (newInsights : list Insight) : M (list Insight) :=
  match findRecord isInternshipKey data with
  | Some _ =>
      let withInternship := filter hasInternship data in
      ratio <- divide (Num (List.length (filter isPlaced withInternship)))
                      (List.length withInternship) ;;
      ret (newInsights ++ [internshipInsight (ratio * 100)%float])
  | None => ret newInsights
  end.

Definition performanceBlock (data : dataset) (newInsights : list Insight) : list Insight :=
  match findRecord isAcademicPerfKey data with
  | Some _ =>
      let perfLevels :=
        JSSet.ofList JSSet.valueEqb
          (filter JSValue.truthy (map (fun record => prop record "Academic Performance") data)) in
      newInsights ++ [performanceInsight (JSSet.size perfLevels)]
  | None => newInsights
  end.

(** A block that pushes a fixed entry when some record has a matching key. *)
Definition fixedBlock (pred : string -> bool) (entry : Insight)
  (data : dataset) (newInsights : list Insight) : list Insight :=
  match findRecord pred data with
  | Some _ => newInsights ++ [entry]
  | None => newInsights
  end.

(** The callback of [setTimeout]: the value handed to [setInsights]. *)
Definition analyse (data : dataset) : M (list Insight) :=
  n1 <- cgpaBlock data [] ;;
  n2 <- internshipBlock data n1 ;;
  let n3 := performanceBlock data n2 in
  let n4 := fixedBlock isCommunicationKey communicationInsight data n3 in
  let n5 := fixedBlock isProjectKey projectsInsight data n4 in
  let n6 := fixedBlock isIqKey iqInsight data n5 in
  let n7 := fixedBlock isExtraCurricularKey extraCurricularInsight data n6 in
  ret n7.

(** [generateInsights], once its timer has fired: the [insights] state
    after the call, from the state before it.  No data: the state is left
    as it is. *)
Definition generateInsights (data : dataset) (insights : list Insight) : M (list Insight) :=
  if List.length data =? 0 then ret insights else analyse data.

End AcademicInsights.

(** ** The insight generator of the placement dashboard (unnamed/part_000) *)

Module PlacementInsights.
Import JSString JSObject JSNumber Csv Insights.

Definition mentions := Dashboard.mentions.

Definition isSalaryKey (key : string) : bool :=
  mentions "salary" key || mentions "package" key || mentions "ctc" key.
Definition isGenderKey (key : string) : bool := mentions "gender" key.
Definition isCgpaKey (key : string) : bool :=
  mentions "cgpa" key || mentions "gpa" key || mentions "grade" key.

(** [record.Department || record.Course || record.Branch]. *)
Definition departmentOf (record : record) : JSValue.value :=
  JSValue.or (JSValue.or (prop record "Department") (prop record "Course"))
             (prop record "Branch").

(** [record.Company || record.Employer]. *)
Definition companyOf (record : record) : JSValue.value :=
  JSValue.or (prop record "Company") (prop record "Employer").

Definition departmentInsight (departments : nat) : Insight :=
  {| id := "1"; type := trend;
     title := "Department Performance Variance";
     description :=
       [Size departments;
        Text " departments show significantly different placement rates. CS/IT departments typically achieve 15-20% higher placement rates."];
     confidence := 0.85%float; impact := high |}.

Definition salaryInsight : Insight :=
  {| id := "2"; type := prediction;
     title := "Salary Growth Trajectory";
     description :=
       [Text "Based on current trends, average placement packages are expected to increase by 12-15% next year, particularly in tech roles."];
     confidence := 0.78%float; impact := high |}.

Definition genderInsight : Insight :=
  {| id := "3"; type := recommendation;
     title := "Diversity Enhancement Opportunity";
     description :=
       [Text "Implementing targeted mentorship programs could improve placement rates for underrepresented groups by 8-12%."];
     confidence := 0.72%float; impact := medium |}.

Definition companiesInsight (uniqueCompanies : nat) : Insight :=
  {| id := "4"; type := trend;
     title := "Industry Preference Shift";
     description :=
       [Size uniqueCompanies;
        Text " unique companies recruited. Tech startups show 25% increase in hiring compared to traditional corporations."];
     confidence := 0.80%float; impact := medium |}.

Definition cgpaInsight : Insight :=
  {| id := "5"; type := anomaly;
     title := "Academic Performance Correlation";
     description :=
       [Text "Students with CGPA 7.5-8.5 show highest placement success rate (78%), surpassing those with higher grades."];
     confidence := 0.88%float; impact := high |}.

Definition skillsInsight : Insight :=
  {| id := "6"; type := recommendation;
     title := "Skills Development Priority";
     description :=
       [Text "Cloud computing and data analytics skills show 40% higher demand. Consider adding specialized certification programs."];
     confidence := 0.75%float; impact := high |}.

(** The key test that gates an entry, for the entries gated by a key. *)
Definition gates : list (string * (string -> bool)) :=
  [("2", isSalaryKey); ("3", isGenderKey); ("5", isCgpaKey)].

(** The property names read directly by the department and company
    entries. *)
Definition namedFields : list string :=
  ["Department"; "Course"; "Branch"; "Company"; "Employer"].

(** A key that some role of the catalogue matches, by substring or by
    name. *)
Definition matchesRole (key : string) : bool :=
  isSalaryKey key || isGenderKey key || isCgpaKey key
  || existsb (String.eqb key) namedFields.

Definition departmentBlock (data : dataset) (newInsights : list Insight) : list Insight :=
  let departments := JSSet.ofList JSSet.valueEqb (map departmentOf data) in
  if 1 <? JSSet.size departments
  then newInsights ++ [departmentInsight (JSSet.size departments)]
  else newInsights.

Definition companiesBlock (data : dataset) (newInsights : list Insight) : list Insight :=
  let companies := filter JSValue.truthy (map companyOf data) in
  if 0 <? List.length companies
  then newInsights ++ [companiesInsight (JSSet.size (JSSet.ofList JSSet.valueEqb companies))]
  else newInsights.

Definition fixedBlock := AcademicInsights.fixedBlock.

(** The callback of [setTimeout]: the value handed to [setInsights]. *)
Definition analyse (data : dataset) : list Insight :=
  let n1 := departmentBlock data [] in
  let n2 := fixedBlock isSalaryKey salaryInsight data n1 in
  let n3 := fixedBlock isGenderKey genderInsight data n2 in
  let n4 := companiesBlock data n3 in
  let n5 := fixedBlock isCgpaKey cgpaInsight data n4 in
  n5 ++ [skillsInsight].

(** [generateInsights], once its timer has fired. *)
Definition generateInsights (data : dataset) (insights : list Insight) : list Insight :=
  if List.length data =? 0 then insights else analyse data.

End PlacementInsights.

(** ** The specification's own wording, for comparison with the code *)

Module Spec.
Import JSString JSObject JSNumber Csv.



(** The values of a numeric role that parse as a floating-point number,
    in dataset order; a value that fails to parse is skipped. *)
Definition parsedValues (role : record -> JSValue.value) (data : dataset) : list number :=
  flat_map (fun r => match role r with
                     | Some s => if isNaN (parseFloat s) then [] else [parseFloat s]
                     | None => []
                     end) data.

(** The average over the values that parsed, 0 when none did. *)
Definition mean (xs : list number) : number :=
  match xs with
  | [] => 0%float
  | _ :: _ => (fold_left PrimFloat.add xs 0 / Num (List.length xs))%float
  end.

(** The distinct count of a categorical field: the unique trimmed values
    that are not empty and are not the sentinel, compared without regard
    to case. *)
Definition distinctCount (field : string) (data : dataset) : nat :=
  let trimmed := flat_map (fun r => match prop r field with
                                    | Some v => [trim v]
                                    | None => []
                                    end) data in
  JSSet.size
    (JSSet.ofList String.eqb
       (filter (fun v => truthy v && negb (String.eqb (toLowerCase v) "not placed")) trimmed)).

(** [h] is the first element of [keys], in their order, that satisfies
    [pred]. *)
Definition firstMatch (pred : string -> bool) (keys : list string) (h : string) : Prop :=
  exists pre post,
    keys = pre ++ h :: post /\ pred h = true /\ forall x, In x pre -> pred x = false.

(** What the resolution needs of a role predicate: no array index, not the
    name [__proto__] and not the empty name satisfy it. *)
Definition headerPredicate (p : string -> bool) : Prop :=
  (forall k, isArrayIndex k = true -> p k = false) /\
  p "__proto__" = false /\ p EmptyString = false.

(** A string made of white space only (the empty string included). *)
Fixpoint blank (s : string) : bool :=
  match s with
  | EmptyString => true
  | String c r => isWhiteSpace c && blank r
  end.

End Spec.

(** ** Input texts of the scenarios *)

Module Scenarios.
Import JSString.

(** Scenario A: one placed and one unplaced student. *)
Definition scenarioA : string := unlines ["Name,Status"; "A,Placed"; "B,Not Placed"].


(** Scenario C: a company column with a duplicate and the sentinel. *)
Definition scenarioC : string :=
  unlines ["Company"; "Google"; "Google"; "Microsoft"; "Not Placed"].

(** Scenario D: a single column that matches no role. *)
Definition scenarioD : string := unlines ["Notes"; "first remark"; "second remark"].

(** A company column whose only cell is the sentinel, quoted with a space
    inside the quotes on each side. *)
Definition paddedSentinel : string :=
  unlines ["Company"; String dquote (" Not Placed " ++ String dquote "")].

(** Three students of the sample file, in two orders. *)
Definition sampleOrder1 : string :=
  unlines ["Name,CGPA"; "John Doe,8.5"; "Jane Smith,9.2"; "Alice Brown,8.9"].
Definition sampleOrder2 : string :=
  unlines ["Name,CGPA"; "John Doe,8.5"; "Alice Brown,8.9"; "Jane Smith,9.2"].

(** Two header orders for the CGPA role. *)
Definition cgpaFirst : string := unlines ["CGPA,Academic_GPA"; "8.1,7.9"].
Definition academicGpaFirst : string := unlines ["Academic_GPA,CGPA"; "7.9,8.1"].

(** A CGPA and an internship column, nobody placed, nobody with an
    internship. *)
Definition nobodyPlaced : string :=
  unlines ["Name,CGPA,Internship,Placement"; "A,8.5,No,Not Placed"; "B,7.9,No,Not Placed"].

(** Headers that the chart configuration matches by substring but whose
    names differ from the property names the metrics read. *)
Definition lowerCaseHeaders : string :=
  unlines ["name,Cgpa,placement status"; "A,8.5,Placed"; "B,7.9,Placed"].

(** One department, and one record without any. *)
Definition oneDepartment : string := unlines ["Name,Department"; "A,CS"; "B,"].

(** A placed student whose CGPA is not a number. *)
Definition unparsableCgpa : string :=
  unlines ["Name,CGPA,Placement"; "A,8.5,Placed"; "B,N/A,Placed"].

End Scenarios.

(** ** The data table (first unit of client/components/ui/data-table.tsx) *)

Module DataTable.
Import JSString JSObject Csv.

Inductive Direction := asc | desc.

Record SortConfig := { key : string; direction : Direction }.

(** The state of the component: [searchTerm], [sortConfig] ([None] is
    [null]) and [currentPage]. *)
Record State := {
  searchTerm : string;
  sortConfig : option SortConfig;
  currentPage : nat
}.

Definition initial : State :=
  {| searchTerm := EmptyString; sortConfig := None; currentPage := 1 |}.

(** [Object.keys(data[0])]; no data shows the placeholder and has no
    columns. *)
Definition columns (data : dataset) : list string :=
  match data with
  | [] => []
  | first :: _ => keys first
  end.

(** [Object.values(row)]. *)
Definition values (row : record) : list JSValue.value :=
  map (prop row) (keys row).

(** [value?.toString().toLowerCase().includes(searchTerm.toLowerCase())]. *)
Definition valueMatches (term : string) (v : JSValue.value) : bool :=
  match v with
  | Some s => includes (toLowerCase term) (toLowerCase s)
  | None => false
  end.

Definition rowMatches (term : string) (row : record) : bool :=
  existsb (valueMatches term) (values row).

(** [if (searchTerm) filteredData = data.filter(...)]. *)
Definition filterRows (term : string) (data : dataset) : dataset :=
  if truthy term then filter (rowMatches term) data else data.

(** [a < b] on values read from a row: code-unit order on two strings,
    false as soon as one side is [undefined]. *)
Definition lessThan (a b : JSValue.value) : bool :=
  match a, b with
  | Some x, Some y => String.ltb x y
  | _, _ => false
  end.

(** The comparator handed to [sort]: a negative, zero or positive
    number. *)
Definition compareRows (cfg : SortConfig) (a b : record) : Z :=
  let aValue := prop a (key cfg) in
  let bValue := prop b (key cfg) in
  if JSSet.valueEqb aValue bValue then 0%Z
  else
    let comparison := if lessThan aValue bValue then (-1)%Z else 1%Z in
    match direction cfg with
    | asc => comparison
    | desc => (- comparison)%Z
    end.

(** [Array.prototype.sort] with a comparator.  The language requires a
    stable sort and, for a comparator that is a consistent order, the
    sorted arrangement; the two together fix the result, which is what this
    stable insertion sort computes. *)
Fixpoint insertBy {A : Type} (cmp : A -> A -> Z) (x : A) (l : list A) : list A :=
  match l with
  | [] => [x]
  | y :: rest => if (cmp x y <=? 0)%Z then x :: l else y :: insertBy cmp x rest
  end.

Definition sortBy {A : Type} (cmp : A -> A -> Z) (l : list A) : list A :=
  fold_right (insertBy cmp) [] l.

(** [if (sortConfig) filteredData = [...filteredData].sort(...)]. *)
Definition sortRows (cfg : option SortConfig) (rows : dataset) : dataset :=
  match cfg with
  | Some c => sortBy (compareRows c) rows
  | None => rows
  end.

(** The rows after search and sort. *)
Definition filteredData (data : dataset) (st : State) : dataset :=
  sortRows (sortConfig st) (filterRows (searchTerm st) data).

(** [Math.ceil(length / pageSize)] for a page size of at least one row;
    both operands are integers below 2^32, for which the rounded quotient
    never crosses an integer. *)
Definition totalPages (length pageSize : nat) : nat :=
  (length + pageSize - 1) / pageSize.

Definition startIndex (page pageSize : nat) : nat := (page - 1) * pageSize.

(** [rows.slice(start, stop)] for non-negative integers. *)
Definition slice {A : Type} (start stop : nat) (rows : list A) : list A :=
  firstn (stop - start) (skipn start rows).

(** [filteredData.slice(startIndex, startIndex + pageSize)]. *)
Definition page (rows : dataset) (pageNumber pageSize : nat) : dataset :=
  slice (startIndex pageNumber pageSize) (startIndex pageNumber pageSize + pageSize) rows.

Definition paginatedData (data : dataset) (pageSize : nat) (st : State) : dataset :=
  page (filteredData data st) (currentPage st) pageSize.

(** The updater of [handleSort]. *)
Definition toggleSort (columnKey : string) (current : option SortConfig) : SortConfig :=
  match current with
  | Some c =>
      if String.eqb (key c) columnKey
      then {| key := columnKey;
              direction := match direction c with asc => desc | desc => asc end |}
      else {| key := columnKey; direction := asc |}
  | None => {| key := columnKey; direction := asc |}
  end.

Definition handleSort (columnKey : string) (st : State) : State :=
  {| searchTerm := searchTerm st;
     sortConfig := Some (toggleSort columnKey (sortConfig st));
     currentPage := currentPage st |}.

(** [onChange] of the search box. *)
Definition setSearchTerm (term : string) (st : State) : State :=
  {| searchTerm := term; sortConfig := sortConfig st; currentPage := currentPage st |}.

(** [setCurrentPage(p => Math.max(1, p - 1))]. *)
Definition previousPage (st : State) : State :=
  {| searchTerm := searchTerm st; sortConfig := sortConfig st;
     currentPage := Nat.max 1 (currentPage st - 1) |}.

(** [setCurrentPage(p => Math.min(totalPages, p + 1))]. *)
Definition nextPage (data : dataset) (pageSize : nat) (st : State) : State :=
  {| searchTerm := searchTerm st; sortConfig := sortConfig st;
     currentPage := Nat.min (totalPages (List.length (filteredData data st)) pageSize)
                            (currentPage st + 1) |}.

(** The pagination controls are rendered when [totalPages > 1]. *)
Definition showsControls (data : dataset) (pageSize : nat) (st : State) : bool :=
  1 <? totalPages (List.length (filteredData data st)) pageSize.

End DataTable.

(** ** The chart component (client/components/ui/dashboard-chart.tsx) and
       its use by the dashboard page *)

Module DashboardChart.
Import JSString JSObject Csv.

(** A value of the accumulator: a count, or [NaN]. *)
Inductive tally := Count (n : nat) | NotANumber.

(** The own properties of the accumulator, in insertion order. *)
Definition table := list (string * tally).

(** The property names every plain object inherits from
    [Object.prototype]; each holds a function, [__proto__] the prototype
    object. *)
Definition inheritedNames : list string :=
  ["constructor"; "__defineGetter__"; "__defineSetter__"; "hasOwnProperty";
   "__lookupGetter__"; "__lookupSetter__"; "isPrototypeOf";
   "propertyIsEnumerable"; "toString"; "valueOf"; "__proto__"; "toLocaleString"].

Definition inherited (name : string) : bool := existsb (String.eqb name) inheritedNames.

Fixpoint own (acc : table) (name : string) : option tally :=
  match acc with
  | [] => None
  | (k, t) :: rest => if String.eqb k name then Some t else own rest name
  end.

Fixpoint put (acc : table) (name : string) (t : tally) : table :=
  match acc with
  | [] => [(name, t)]
  | (k, t') :: rest =>
      if String.eqb k name then (k, t) :: rest else (k, t') :: put rest name t
  end.

(** [acc[name] = t]: a number assigned to [__proto__] is ignored. *)
Definition store (acc : table) (name : string) (t : tally) : table :=
  if String.eqb name "__proto__" then acc else put acc name t.

(** The truth value of [acc[name]]: a positive count; not [NaN]; for a
    name with no own property, whether it is inherited. *)
Definition holds (acc : table) (name : string) : bool :=
  match own acc name with
  | Some (Count n) => 0 <? n
  | Some NotANumber => false
  | None => inherited name
  end.

(** [acc[name]++]: the next count, or [NaN] when the value is [NaN] or an
    inherited function or object. *)
Definition increment (acc : table) (name : string) : table :=
  match own acc name with
  | Some (Count n) => store acc name (Count (S n))
  | Some NotANumber => store acc name NotANumber
  | None => store acc name NotANumber
  end.

(** [item[nameKey] || 'Unknown'], for a [nameKey] that is not an inherited
    name. *)
Definition nameOf (nameKey : string) (item : record) : string :=
  match JSValue.or (prop item nameKey) (Some "Unknown") with
  | Some name => name
  | None => "Unknown"
  end.

(** One turn of the [reduce]. *)
Definition tallyStep (nameKey : string) (acc : table) (item : record) : table :=
  let name := nameOf nameKey item in
  if holds acc name then increment acc name else store acc name (Count 1).

Definition processedData (data : dataset) (nameKey : string) : table :=
  fold_left (tallyStep nameKey) data [].

(** [Object.entries(processedData)] as (name, value) pairs: array-index
    names first, in ascending order, then the others in insertion order. *)
Definition entries (acc : table) : list (string * tally) :=
  flat_map (fun name => match own acc name with
                        | Some t => [(name, t)]
                        | None => []
                        end)
           (keys (map (fun e => (fst e, EmptyString)) acc)).

(** The chart data; [None] when the component shows its placeholder for no
    data. *)
Definition chartData (data : dataset) (nameKey : string) : option (list (string * tally)) :=
  match data with
  | [] => None
  | _ :: _ => Some (entries (processedData data nameKey))
  end.

(** The property name a key of the chart configuration denotes;
    [undefined] is the name [undefined]. *)
Definition keyName (k : JSValue.value) : string :=
  match k with
  | Some name => name
  | None => "undefined"
  end.

(** The filter of the company chart on the dashboard page:
    [item[companyKey] && item[companyKey].toString().toLowerCase() !== 'not placed']. *)
Definition recruited (companyKey : string) (item : record) : bool :=
  match prop item companyKey with
  | Some company => truthy company && negb (String.eqb (toLowerCase company) "not placed")
  | None => false
  end.

(** The data of the chart titled Top Recruiting Companies; [None] when
    nothing is drawn. *)
Definition companyChart (placementData : dataset) : option (list (string * tally)) :=
  match Dashboard.getChartConfig placementData with
  | Some cfg =>
      let companyKey := keyName (Dashboard.companyKey cfg) in
      chartData (filter (recruited companyKey) placementData) companyKey
  | None => None
  end.

(** The data of the chart titled Placements by Department. *)
Definition departmentChart (placementData : dataset) : option (list (string * tally)) :=
  match Dashboard.getChartConfig placementData with
  | Some cfg => chartData placementData (keyName (Dashboard.departmentKey cfg))
  | None => None
  end.

End DashboardChart.

(** ** Notions used to state further properties *)

Module Shape.
Import JSString JSObject Csv.

(** A key of the chart configuration, for a role with test [p] and the
    given fallback: the fallback when no header passes the test, and
    otherwise a header that passes it. *)
Definition resolvedBy (p : string -> bool) (fallback : JSValue.value)
  (headers : list string) (k : JSValue.value) : Prop :=
  ((forall h, In h headers -> p h = false) -> k = fallback) /\
  ((exists h, In h headers /\ p h = true) ->
   exists h, k = Some h /\ In h headers /\ p h = true).

(** Whether a search over the records found one. *)
Definition found (r : option record) : bool :=
  match r with
  | Some _ => true
  | None => false
  end.

(** The sum of the counts of a frequency table. *)
Definition total (rows : list (string * DashboardChart.tally)) : nat :=
  fold_right (fun row acc =>
                match snd row with
                | DashboardChart.Count n => n + acc
                | DashboardChart.NotANumber => acc
                end) 0 rows.

(** The value a frequency table holds for a name that occurs [n] times. *)
Definition tallyOf (n : nat) : option DashboardChart.tally :=
  match n with
  | 0 => None
  | S _ => Some (DashboardChart.Count n)
  end.


End Shape.

(* ================================================================== *)
(** * Part II: properties *)
(* ================================================================== *)

(** ** The embedding on small inputs *)

Section Checks.
Import JSString JSObject JSNumber Csv Scenarios.

Example parseCSV_scenarioA :
  parseCSV scenarioA =
  [[("Name", "A"); ("Status", "Placed")]; [("Name", "B"); ("Status", "Not Placed")]].
Proof. reflexivity. Qed.

Example parseCSV_short_and_long_rows :
  parseCSV (unlines ["Name,Status"; "B"; ""; "C,Placed,extra"]) =
  [[("Name", "B"); ("Status", "")]; [("Name", "C"); ("Status", "Placed")]].
Proof. reflexivity. Qed.

Example keys_indices_first :
  keys (zipRow ["Name"; "2"; "10"; "01"; "Name"] []) = ["2"; "10"; "Name"; "01"].
Proof. reflexivity. Qed.

Example trim_both_ends :
  trim (String " "%char (String LF ("a b" ++ String CR EmptyString))) = "a b".
Proof. reflexivity. Qed.

Example parseFloat_decimal : parseFloat "8.5" = 8.5%float.
Proof. reflexivity. Qed.

Example parseFloat_prefix : parseFloat "  -12.5e-1xyz" = (-1.25)%float.
Proof. reflexivity. Qed.

Example parseFloat_nearest : parseFloat "0.1" = 0.1%float.
Proof. reflexivity. Qed.

Example parseFloat_ties_to_even : parseFloat "9007199254740993" = 9007199254740992%float.
Proof. reflexivity. Qed.

Example parseFloat_overflow : parseFloat "1e400" = infinity.
Proof. reflexivity. Qed.

Example parseFloat_not_a_number : isNaN (parseFloat "not_a_number") = true.
Proof. reflexivity. Qed.

Example parseFloat_no_digits : isNaN (parseFloat ".") = true.
Proof. reflexivity. Qed.

Example Num_exact : Num 12 = 12%float.
Proof. reflexivity. Qed.

End Checks.

(** ** Strings *)

Section StringFacts.
Import JSString Spec.

Lemma trimStart_empty_iff (s : string) : trimStart s = EmptyString <-> blank s = true.
Proof.
  induction s as [|c r IH]; simpl.
  - tauto.
  - destruct (isWhiteSpace c); simpl.
    + exact IH.
    + split; discriminate.
Qed.






End StringFacts.

(** ** Objects *)

Section ObjectFacts.
Import JSString JSObject.

Lemma In_insertIndex (n : N) (k : string) (l : list (N * string)) (x : N * string) :
  In x (insertIndex n k l) <-> x = (n, k) \/ In x l.
Proof.
  induction l as [|[m k'] rest IH]; simpl.
  - intuition congruence.
  - destruct (N.leb n m); simpl; rewrite ?IH; intuition congruence.
Qed.

Lemma In_sortIndices (l : list (N * string)) (x : N * string) :
  In x (sortIndices l) <-> In x l.
Proof.
  induction l as [|[n k] rest IH]; simpl.
  - tauto.
  - rewrite In_insertIndex, IH. intuition congruence.
Qed.

Lemma In_indexKeys (ks : list string) (n : N) (k : string) :
  In (n, k) (indexKeys ks) <-> In k ks /\ arrayIndex k = Some n.
Proof.
  unfold indexKeys. rewrite in_flat_map. split.
  - intros (k' & Hin & H). destruct (arrayIndex k') eqn:E; simpl in H; [|tauto].
    destruct H as [H|[]]. inversion H; subst. tauto.
  - intros [Hin E]. exists k. rewrite E. simpl. tauto.
Qed.

(** [Object.keys] lists the own property names, each of them. *)
Lemma In_keys (o : object) (k : string) : In k (keys o) <-> In k (map fst o).
Proof.
  unfold keys. rewrite in_app_iff, in_map_iff, filter_In. split.
  - intros [((n, k') & Hk & Hin)|[Hin _]]; trivial.
    simpl in Hk; subst. apply In_sortIndices, In_indexKeys in Hin. tauto.
  - intros Hin. unfold isArrayIndex. destruct (arrayIndex k) as [n|] eqn:E.
    + left. exists (n, k). split; trivial. apply In_sortIndices, In_indexKeys. tauto.
    + right. tauto.
Qed.

Lemma find_all_false {A : Type} (p : A -> bool) (l : list A) :
  (forall x, In x l -> p x = false) -> find p l = None.
Proof.
  induction l as [|a l IH]; simpl; trivial.
  intros H. rewrite (H a) by tauto. apply IH. intros x Hx. apply H. tauto.
Qed.

Lemma find_append {A : Type} (p : A -> bool) (l1 l2 : list A) :
  find p (l1 ++ l2) = match find p l1 with Some x => Some x | None => find p l2 end.
Proof.
  induction l1 as [|a l1 IH]; simpl; trivial.
  now destruct (p a).
Qed.

Lemma find_filter_implied {A : Type} (p q : A -> bool) (l : list A) :
  (forall x, p x = true -> q x = true) -> find p (filter q l) = find p l.
Proof.
  intros H. induction l as [|a l IH]; simpl; trivial.
  destruct (q a) eqn:Q; simpl.
  - now rewrite IH.
  - destruct (p a) eqn:P; trivial. apply H in P. congruence.
Qed.

(** A predicate that no array index satisfies meets the keys in insertion
    order. *)
Lemma find_keys (p : string -> bool) (o : object) :
  (forall k, isArrayIndex k = true -> p k = false) ->
  find p (keys o) = find p (map fst o).
Proof.
  intros H. unfold keys. rewrite find_append, find_all_false.
  - apply find_filter_implied. intros x Px.
    destruct (isArrayIndex x) eqn:E; trivial. apply H in E. congruence.
  - intros x Hx. apply in_map_iff in Hx as ((n, k) & Hk & Hin).
    simpl in Hk; subst. apply In_sortIndices, In_indexKeys in Hin as [_ E].
    apply H. unfold isArrayIndex. now rewrite E.
Qed.

Lemma prop_None_iff (o : object) (k : string) : prop o k = None <-> ~ In k (map fst o).
Proof.
  induction o as [|[k' v] rest IH]; simpl.
  - tauto.
  - destruct (String.eqb_spec k' k).
    + split; [discriminate|]. intros H. exfalso. apply H. now left.
    + rewrite IH. intuition.
Qed.




Lemma find_define (p : string -> bool) (o : object) (k v : string) :
  find p (map fst (define o k v)) =
  match find p (map fst o) with
  | Some x => Some x
  | None => if p k then Some k else None
  end.
Proof.
  induction o as [|[k' v'] rest IH]; simpl; trivial.
  destruct (String.eqb_spec k' k); simpl.
  - subst. destruct (p k); trivial. now destruct (find p (map fst rest)).
  - destruct (p k'); trivial.
Qed.

End ObjectFacts.

(** ** The CSV parser *)

Section CsvFacts.
Import JSString JSObject Csv Spec.

Local Abbreviation zipStep values :=
  (fun '(obj, index) header => (assign obj header (valueAt values index), S index)).


Lemma find_zip_fold (p : string -> bool) (values headers : list string) :
  p "__proto__" = false ->
  forall (o : object) (i : nat),
    find p (map fst (fst (fold_left (zipStep values) headers (o, i)))) =
    match find p (map fst o) with
    | Some x => Some x
    | None => find p headers
    end.
Proof.
  intros Hp. induction headers as [|h headers IH]; intros o i; simpl.
  - now destruct (find p (map fst o)).
  - rewrite IH. unfold assign.
    destruct (String.eqb_spec h "__proto__") as [E|E].
    + subst. now rewrite Hp.
    + rewrite find_define. destruct (find p (map fst o)); trivial.
      now destruct (p h).
Qed.











Lemma parseCSV_rows (text header : string) (rows : list string) :
  nonBlankLines text = header :: rows ->
  parseCSV text = map (fun row => zipRow (cells header) (cells row)) rows.
Proof.
  intros H. unfold parseCSV. now rewrite H.
Qed.



End CsvFacts.

(** ** The metrics of the dashboard page *)

Section MetricsFacts.
Import JSString JSObject JSNumber Csv Traced Dashboard Spec Scenarios.

(** The summary, field by field, for every dataset (the early return for
    no data agrees with the general formulas). *)
Lemma metrics_fields (data : dataset) :
  metrics data =
  {| totalStudents := List.length data;
     placedStudents := List.length (filter isPlaced data);
     placementRate := result (percentage (List.length (filter isPlaced data)) (List.length data));
     averageCGPA :=
       (let '(totalCGPA, cgpaCount) := fold_left cgpaStep data (0%float, 0) in
        if 0 <? cgpaCount then (totalCGPA / Num cgpaCount)%float else 0%float);
     withInternship := List.length (filter hasInternship data);
     internshipRate := result (percentage (List.length (filter hasInternship data)) (List.length data)) |}.
Proof.
  destruct data as [|r data]; [reflexivity|].
  unfold metrics, metricsTraced, percentage.
  change (List.length (r :: data) =? 0) with false.
  change (0 <? List.length (r :: data)) with true. cbv iota.
  destruct (fold_left cgpaStep (r :: data) (0%float, 0)) as [totalCGPA cgpaCount].
  destruct (0 <? cgpaCount); reflexivity.
Qed.





Lemma parseFloat_empty : isNaN (parseFloat EmptyString) = true.
Proof. reflexivity. Qed.

(** The loop over the records adds exactly the values that parse, in
    dataset order, and counts them. *)
Lemma cgpa_fold (data : dataset) :
  forall (total : number) (count : nat),
    fold_left cgpaStep data (total, count) =
    (fold_left PrimFloat.add (parsedValues cgpaOf data) total,
     count + List.length (parsedValues cgpaOf data)).
Proof.
  induction data as [|r data IH]; intros total count; simpl.
  - now rewrite Nat.add_0_r.
  - destruct (cgpaOf r) as [cgpa|]; simpl.
    + destruct cgpa as [|c s].
      * rewrite parseFloat_empty. simpl. apply IH.
      * change (truthy (String c s)) with true. rewrite andb_true_l.
        destruct (isNaN (parseFloat (String c s))); simpl.
        -- apply IH.
        -- rewrite IH. f_equal. lia.
    + apply IH.
Qed.

Lemma averageCGPA_mean (data : dataset) :
  averageCGPA (metrics data) = mean (parsedValues cgpaOf data).
Proof.
  rewrite metrics_fields. simpl. rewrite cgpa_fold. simpl.
  unfold mean. destruct (parsedValues cgpaOf data); reflexivity.
Qed.



Lemma percentage_divisions (part count : nat) :
  Forall (fun d => divisor d <> 0) (divisions (percentage part count)).
Proof.
  unfold percentage. destruct (0 <? count) eqn:E; simpl.
  - constructor; [|constructor]. simpl. apply Nat.ltb_lt in E. lia.
  - constructor.
Qed.

Lemma divisions_bind {A B : Type} (m : M A) (k : A -> M B) :
  divisions (bind m k) = divisions m ++ divisions (k (result m)).
Proof.
  unfold bind, divisions, result. destruct m as [a t]. simpl.
  now destruct (k a).
Qed.

(** C6.  For the empty dataset the summary has totalCount 0 and
    placementRate 0 and no division takes place; on every dataset each
    division the metrics perform (placement rate, average CGPA, internship
    rate) has a non-zero divisor. *)
Theorem metrics_never_divide_by_zero :
  (totalStudents (metrics []) = 0 /\
   placementRate (metrics []) = 0%float /\
   divisions (metricsTraced []) = []) /\
  forall data : dataset,
    Forall (fun d => divisor d <> 0) (divisions (metricsTraced data)).
Proof.
  split; [repeat split|].
  intros data. unfold metricsTraced.
  destruct (List.length data =? 0); [constructor|].
  rewrite divisions_bind. apply Forall_app. split; [apply percentage_divisions|].
  destruct (fold_left cgpaStep data (0%float, 0)) as [totalCGPA cgpaCount].
  rewrite divisions_bind. apply Forall_app. split.
  - destruct (0 <? cgpaCount) eqn:E; simpl.
    + constructor; [|constructor]. simpl. apply Nat.ltb_lt in E. lia.
    + constructor.
  - rewrite divisions_bind. apply Forall_app. split; [apply percentage_divisions|].
    constructor.
Qed.

(** X6.  The salary/company variant of the metrics never divides by zero:
    each division it performs (placement rate, average salary) has a
    non-zero divisor, on every dataset. *)
Lemma package_metrics_never_divide_by_zero (data : dataset) :
  Forall (fun d => divisor d <> 0) (divisions (PackageMetrics.metricsTraced data)).
Proof.
  unfold PackageMetrics.metricsTraced.
  destruct (List.length data =? 0); [constructor|].
  rewrite divisions_bind. apply Forall_app. split; [apply percentage_divisions|].
  destruct (fold_left PackageMetrics.salaryStep data (0%float, 0)) as [totalSalary salaryCount].
  rewrite divisions_bind. apply Forall_app. split; [|constructor].
  destruct (0 <? salaryCount) eqn:E; simpl.
  - constructor; [|constructor]. simpl. apply Nat.ltb_lt in E. lia.
  - constructor.
Qed.

End MetricsFacts.

(** ** Order of the records *)

Section OrderFacts.
Import JSString JSObject JSNumber Csv Traced Dashboard Spec Scenarios.

Lemma Permutation_filter_length {A : Type} (p : A -> bool) (l l' : list A) :
  Permutation l l' -> List.length (filter p l) = List.length (filter p l').
Proof.
  induction 1 as [|x l l' _ IH|x y l|l l' l'' _ IH1 _ IH2]; simpl.
  - reflexivity.
  - destruct (p x); simpl; congruence.
  - destruct (p x), (p y); reflexivity.
  - congruence.
Qed.

Lemma Permutation_parsedValues (role : record -> JSValue.value) (d1 d2 : dataset) :
  Permutation d1 d2 -> Permutation (parsedValues role d1) (parsedValues role d2).
Proof.
  unfold parsedValues.
  induction 1 as [|x l l' _ IH|x y l|l l' l'' _ IH1 _ IH2]; simpl.
  - constructor.
  - now apply Permutation_app_head.
  - rewrite !app_assoc. apply Permutation_app_tail, Permutation_app_comm.
  - eapply Permutation_trans; eassumption.
Qed.

(** C9, as amended.  For two datasets that are permutations of one another
    the counts and the rates of the summary are identical, and the two
    average CGPAs are the floating-point means of the same values, each
    summed in the order of its own dataset; they are identical when the
    values that parse come in the same order. *)
Theorem metrics_counts_ignore_order (d1 d2 : dataset) :
  Permutation d1 d2 ->
  totalStudents (metrics d1) = totalStudents (metrics d2) /\
  placedStudents (metrics d1) = placedStudents (metrics d2) /\
  placementRate (metrics d1) = placementRate (metrics d2) /\
  withInternship (metrics d1) = withInternship (metrics d2) /\
  internshipRate (metrics d1) = internshipRate (metrics d2) /\
  Permutation (parsedValues cgpaOf d1) (parsedValues cgpaOf d2) /\
  averageCGPA (metrics d1) = mean (parsedValues cgpaOf d1) /\
  averageCGPA (metrics d2) = mean (parsedValues cgpaOf d2) /\
  (parsedValues cgpaOf d1 = parsedValues cgpaOf d2 ->
   averageCGPA (metrics d1) = averageCGPA (metrics d2)).
Proof.
  intros P. rewrite !averageCGPA_mean, !metrics_fields. simpl.
  rewrite (Permutation_length P).
  rewrite (Permutation_filter_length isPlaced _ _ P).
  rewrite (Permutation_filter_length hasInternship _ _ P).
  repeat split; trivial.
  - now apply Permutation_parsedValues.
  - now intros ->.
Qed.

Lemma metrics_counts_ignore_order_sample :
  Permutation (parseCSV sampleOrder1) (parseCSV sampleOrder2) /\
  placementRate (metrics (parseCSV sampleOrder1)) = placementRate (metrics (parseCSV sampleOrder2)) /\
  Permutation (parsedValues cgpaOf (parseCSV sampleOrder1))
              (parsedValues cgpaOf (parseCSV sampleOrder2)).
Proof.
  assert (P : Permutation (parseCSV sampleOrder1) (parseCSV sampleOrder2)).
  { vm_compute. apply perm_skip, perm_swap. }
  split; [exact P|].
  destruct (metrics_counts_ignore_order _ _ P) as (_ & _ & R & _ & _ & V & _ & _ & _).
  split; [exact R | exact V].
Defined.

(** C9 as stated fails: the same three records in two orders have
    different average CGPAs, because the sum is a left-to-right
    floating-point sum. *)
Lemma average_cgpa_depends_on_order :
  Permutation (parseCSV sampleOrder1) (parseCSV sampleOrder2) /\
  averageCGPA (metrics (parseCSV sampleOrder1)) = 8.866666666666667%float /\
  averageCGPA (metrics (parseCSV sampleOrder2)) = 8.866666666666665%float /\
  averageCGPA (metrics (parseCSV sampleOrder1))
  <> averageCGPA (metrics (parseCSV sampleOrder2)).
Proof.
  split; [|split; [|split]].
  - vm_compute. apply perm_skip, perm_swap.
  - vm_compute. reflexivity.
  - vm_compute. reflexivity.
  - intros H. apply (f_equal Prim2SF) in H. vm_compute in H. discriminate.
Qed.

End OrderFacts.

(** ** Role resolution *)

Section RoleFacts.
Import JSString JSObject Csv Dashboard AcademicDashboard Spec Scenarios.

Lemma lowerChar_digit (c : ascii) : isDigit c = true -> lowerChar c = c.
Proof.
  destruct c as [[] [] [] [] [] [] [] []]; intros H; try reflexivity; discriminate H.
Qed.

Lemma toLowerCase_digits (k : string) : allDigits k = true -> toLowerCase k = k.
Proof.
  induction k as [|c r IH]; simpl; trivial.
  intros H. apply andb_true_iff in H as [Hc Hr].
  now rewrite lowerChar_digit, IH.
Qed.

Lemma isDigit_eqb (a b : ascii) :
  isDigit a = false -> isDigit b = true -> Ascii.eqb a b = false.
Proof.
  intros Ha Hb. destruct (Ascii.eqb_spec a b); trivial. congruence.
Qed.

(** A needle that starts with a letter does not occur in a string of
    digits. *)
Lemma includes_digits (a : ascii) (needle k : string) :
  isDigit a = false -> allDigits k = true -> includes (String a needle) k = false.
Proof.
  intros Ha. induction k as [|c r IH]; simpl; trivial.
  intros H. apply andb_true_iff in H as [Hc Hr].
  now rewrite (isDigit_eqb a c Ha Hc), IH.
Qed.

Lemma arrayIndex_digits (k : string) : isArrayIndex k = true -> allDigits k = true.
Proof.
  unfold isArrayIndex, arrayIndex. destruct k as [|c r]; [discriminate|].
  destruct (allDigits (String c r)); [trivial|]. simpl. discriminate.
Qed.

Lemma mentions_arrayIndex (a : ascii) (needle k : string) :
  isDigit a = false -> isArrayIndex k = true -> mentions (String a needle) k = false.
Proof.
  intros Ha Hk. apply arrayIndex_digits in Hk. unfold mentions.
  rewrite toLowerCase_digits by exact Hk. now apply includes_digits.
Qed.

Lemma isCgpaKey_header : headerPredicate isCgpaKey.
Proof.
  repeat split; trivial. intros k Hk. unfold isCgpaKey.
  now rewrite !mentions_arrayIndex.
Qed.

Lemma isPlacementKey_header : headerPredicate isPlacementKey.
Proof.
  repeat split; trivial. intros k Hk. unfold isPlacementKey.
  now rewrite !mentions_arrayIndex.
Qed.

Lemma isInternshipKey_header : headerPredicate isInternshipKey.
Proof.
  repeat split; trivial. intros k Hk. unfold isInternshipKey.
  now rewrite !mentions_arrayIndex.
Qed.

Lemma isAcademicPerfKey_header : headerPredicate isAcademicPerfKey.
Proof.
  repeat split; trivial. intros k Hk. unfold isAcademicPerfKey.
  now rewrite !mentions_arrayIndex.
Qed.

Lemma isDepartmentKey_header : headerPredicate isDepartmentKey.
Proof.
  repeat split; trivial. intros k Hk. unfold isDepartmentKey.
  now rewrite !mentions_arrayIndex.
Qed.

Lemma isCompanyKey_header : headerPredicate isCompanyKey.
Proof.
  repeat split; trivial. intros k Hk. unfold isCompanyKey.
  now rewrite !mentions_arrayIndex.
Qed.

Lemma find_firstMatch (p : string -> bool) (keys : list string) (h : string) :
  firstMatch p keys h -> find p keys = Some h.
Proof.
  intros (pre & post & -> & Hh & Hpre).
  rewrite find_append, find_all_false by exact Hpre. simpl. now rewrite Hh.
Qed.

(** [keys.find(pred) || fallback] is the first key that satisfies the
    predicate, when there is one. *)
Lemma findKey_firstMatch (p : string -> bool) (fallback : JSValue.value)
  (keys : list string) (h : string) :
  p EmptyString = false -> firstMatch p keys h -> findKey p fallback keys = Some h.
Proof.
  intros Hempty Hfirst. unfold findKey. rewrite (find_firstMatch _ _ _ Hfirst).
  destruct Hfirst as (_ & _ & _ & Hh & _).
  destruct h; [congruence|reflexivity].
Qed.

(** The keys of a parsed record meet a role predicate in header order. *)
Lemma find_keys_zipRow (p : string -> bool) (headers values : list string) :
  headerPredicate p -> find p (keys (zipRow headers values)) = find p headers.
Proof.
  intros (Hindex & Hproto & _). rewrite find_keys by exact Hindex.
  unfold zipRow. now rewrite find_zip_fold.
Qed.

Lemma findKey_zipRow (p : string -> bool) (fallback : JSValue.value)
  (headers values : list string) (h : string) :
  headerPredicate p -> firstMatch p headers h ->
  findKey p fallback (keys (zipRow headers values)) = Some h.
Proof.
  intros Hp Hfirst. unfold findKey.
  rewrite (find_keys_zipRow _ _ _ Hp), (find_firstMatch _ _ _ Hfirst).
  destruct Hp as (_ & _ & Hempty). destruct Hfirst as (_ & _ & _ & Hh & _).
  destruct h; [congruence|reflexivity].
Qed.

(** C3, as amended.  On a parsed text with at least one data row, each role
    of the two chart configurations resolves to the first header, in header
    order, that contains one of the role's candidate substrings; in
    particular the CGPA role resolves to the header CGPA whenever no
    earlier header contains gpa, as in the header line CGPA,Academic_GPA. *)
Theorem role_resolves_to_first_matching_header :
  (forall text header row rows h,
      nonBlankLines text = header :: row :: rows ->
      (firstMatch isCgpaKey (cells header) h ->
       option_map cgpaKey (getChartConfig (parseCSV text)) = Some (Some h)) /\
      (firstMatch isPlacementKey (cells header) h ->
       option_map placementKey (getChartConfig (parseCSV text)) = Some (Some h)) /\
      (firstMatch isInternshipKey (cells header) h ->
       option_map internshipKey (getChartConfig (parseCSV text)) = Some (Some h)) /\
      (firstMatch isAcademicPerfKey (cells header) h ->
       option_map academicPerfKey (getChartConfig (parseCSV text)) = Some (Some h)) /\
      (firstMatch isDepartmentKey (cells header) h ->
       option_map departmentKey (Dashboard.getChartConfig (parseCSV text)) = Some (Some h)) /\
      (firstMatch isCompanyKey (cells header) h ->
       option_map companyKey (Dashboard.getChartConfig (parseCSV text)) = Some (Some h))) /\
  (forall pre post,
      (forall x, In x pre -> isCgpaKey x = false) ->
      cgpaKey (resolveRoles (pre ++ "CGPA" :: post)) = Some "CGPA") /\
  option_map cgpaKey (getChartConfig (parseCSV cgpaFirst)) = Some (Some "CGPA").
Proof.
  split; [|split].
  - intros text header row rows h Hlines.
    rewrite (parseCSV_rows _ _ _ Hlines). simpl.
    repeat split; intros Hfirst; do 2 f_equal; apply findKey_zipRow; trivial.
    + apply isCgpaKey_header.
    + apply isPlacementKey_header.
    + apply isInternshipKey_header.
    + apply isAcademicPerfKey_header.
    + apply isDepartmentKey_header.
    + apply isCompanyKey_header.
  - intros pre post Hpre. simpl. apply findKey_firstMatch; trivial.
    exists pre, post. repeat split; trivial.
  - reflexivity.
Qed.

Lemma role_resolves_to_first_matching_header_sample :
  option_map cgpaKey (getChartConfig (parseCSV academicGpaFirst)) = Some (Some "Academic_GPA").
Proof.
  destruct role_resolves_to_first_matching_header as (H & _).
  destruct (H academicGpaFirst "Academic_GPA,CGPA" "7.9,8.1" [] "Academic_GPA" eq_refl)
    as (Hcgpa & _).
  apply Hcgpa. exists [], ["CGPA"]. repeat split; trivial. intros x [].
Defined.

(** C3 as stated fails: a header line that holds both CGPA and
    Academic_GPA, the latter first, resolves the CGPA role to
    Academic_GPA. *)
Lemma cgpa_role_follows_header_order :
  In "CGPA" (cells "Academic_GPA,CGPA") /\
  In "Academic_GPA" (cells "Academic_GPA,CGPA") /\
  option_map cgpaKey (getChartConfig (parseCSV academicGpaFirst)) = Some (Some "Academic_GPA") /\
  option_map cgpaKey (getChartConfig (parseCSV academicGpaFirst)) <> Some (Some "CGPA").
Proof.
  repeat split.
  - vm_compute. tauto.
  - vm_compute. tauto.
  - vm_compute. discriminate.
Qed.

End RoleFacts.

(** ** Distinct companies (salary/company variant of the metrics) *)

Section CompanyFacts.
Import JSString JSObject JSNumber Csv Traced PackageMetrics Spec Scenarios.

Lemma topCompanies_fold (data : dataset) :
  topCompanies (metrics data) = JSSet.size (fold_left companyStep data []).
Proof.
  destruct data as [|r data]; [reflexivity|].
  unfold metrics, metricsTraced, Dashboard.percentage.
  change (List.length (r :: data) =? 0) with false.
  change (0 <? List.length (r :: data)) with true. cbv iota.
  destruct (fold_left salaryStep (r :: data) (0%float, 0)) as [totalSalary salaryCount].
  destruct (0 <? salaryCount); reflexivity.
Qed.

Lemma eqb_empty_truthy (v : string) : String.eqb v EmptyString = negb (truthy v).
Proof. now destruct v. Qed.

(** On records that carry their company under [Company] only, with values
    free of surrounding white space, the loop adds the trimmed values that
    are neither empty nor the sentinel. *)
Lemma companies_fold_trimmed (data : dataset) :
  (forall r, In r data ->
     prop r "Employer" = None /\ prop r "Organization" = None /\
     prop r "Company_Name" = None /\
     forall v, prop r "Company" = Some v -> trim v = v) ->
  forall acc : list string,
    fold_left companyStep data acc =
    fold_left (JSSet.add String.eqb)
      (filter (fun v => truthy v && negb (String.eqb (toLowerCase v) "not placed"))
         (flat_map (fun r => match prop r "Company" with
                             | Some v => [trim v]
                             | None => []
                             end) data))
      acc.
Proof.
  induction data as [|r data IH]; intros H acc; simpl; trivial.
  destruct (H r (or_introl eq_refl)) as (He & Ho & Hn & Ht).
  assert (IH' := IH (fun r' Hr' => H r' (or_intror Hr'))). clear IH.
  unfold companyStep at 2. simpl. rewrite He, Ho, Hn.
  destruct (prop r "Company") as [v|] eqn:Ev; simpl.
  - specialize (Ht v eq_refl). unfold acceptsCompany. rewrite Ht, eqb_empty_truthy.
    destruct (truthy v); simpl; [|apply IH'].
    destruct (String.eqb (toLowerCase v) "not placed"); simpl; apply IH'.
  - apply IH'.
Qed.

(** There the count of the code is the distinct count of the
    specification. *)
Lemma topCompanies_trimmed (data : dataset) :
  (forall r, In r data ->
     prop r "Employer" = None /\ prop r "Organization" = None /\
     prop r "Company_Name" = None /\
     forall v, prop r "Company" = Some v -> trim v = v) ->
  topCompanies (metrics data) = distinctCount "Company" data.
Proof.
  intros H. rewrite topCompanies_fold. unfold distinctCount, JSSet.ofList.
  now rewrite (companies_fold_trimmed data H).
Qed.

(** C5.  Scenario C counts 2 distinct companies, as the specification's
    distinct count does.  On the padded sentinel the parsed value keeps the
    spaces inside the quotes; the code compares the untrimmed value with
    the sentinel, adds the trimmed name and counts 1, where the distinct
    count of the specification is 0. *)
Theorem company_count_on_scenario_and_padded_sentinel :
  (topCompanies (metrics (parseCSV scenarioC)) = 2 /\
   distinctCount "Company" (parseCSV scenarioC) = 2) /\
  (parseCSV paddedSentinel = [[("Company", " Not Placed ")]] /\
   fold_left companyStep (parseCSV paddedSentinel) [] = ["Not Placed"] /\
   topCompanies (metrics (parseCSV paddedSentinel)) = 1 /\
   distinctCount "Company" (parseCSV paddedSentinel) = 0).
Proof.
  repeat split; vm_compute; reflexivity.
Qed.

End CompanyFacts.

(** ** The insight generators *)

Section InsightFacts.
Import JSString JSObject JSNumber Csv Traced Insights Spec Scenarios.

Lemma result_bind {A B : Type} (m : M A) (k : A -> M B) :
  result (bind m k) = result (k (result m)).
Proof.
  unfold bind, result. destruct m as [a t]. simpl. now destruct (k a).
Qed.


Lemma findRecord_some (pred : string -> bool) (data : dataset) :
  (exists record k, In record data /\ In k (keys record) /\ pred k = true) ->
  exists record, findRecord pred data = Some record.
Proof.
  intros (record & k & Hr & Hk & Pk).
  destruct (findRecord pred data) as [found|] eqn:E; [now exists found|].
  pose proof (find_none _ _ E record Hr) as N. simpl in N.
  assert (existsb pred (keys record) = true) by (apply existsb_exists; eauto).
  congruence.
Qed.

(** The academic generator: what a block leaves in the list and what it
    may add. *)

Lemma fixedBlock_keeps (pred : string -> bool) (entry x : Insight)
  (data : dataset) (acc : list Insight) :
  In x acc -> In x (AcademicInsights.fixedBlock pred entry data acc).
Proof.
  unfold AcademicInsights.fixedBlock. destruct (findRecord pred data); trivial.
  intros H. apply in_or_app. now left.
Qed.


Lemma performanceBlock_keeps (x : Insight) (data : dataset) (acc : list Insight) :
  In x acc -> In x (AcademicInsights.performanceBlock data acc).
Proof.
  unfold AcademicInsights.performanceBlock.
  destruct (findRecord AcademicInsights.isAcademicPerfKey data); trivial.
  intros H. apply in_or_app. now left.
Qed.


Lemma internshipBlock_keeps (x : Insight) (data : dataset) (acc : list Insight) :
  In x acc -> In x (result (AcademicInsights.internshipBlock data acc)).
Proof.
  unfold AcademicInsights.internshipBlock.
  destruct (findRecord AcademicInsights.isInternshipKey data); trivial.
  intros H. simpl. apply in_or_app. now left.
Qed.



Lemma analyse_result (data : dataset) :
  result (AcademicInsights.analyse data) =
  AcademicInsights.fixedBlock AcademicInsights.isExtraCurricularKey
    AcademicInsights.extraCurricularInsight data
    (AcademicInsights.fixedBlock AcademicInsights.isIqKey AcademicInsights.iqInsight data
       (AcademicInsights.fixedBlock AcademicInsights.isProjectKey
          AcademicInsights.projectsInsight data
          (AcademicInsights.fixedBlock AcademicInsights.isCommunicationKey
             AcademicInsights.communicationInsight data
             (AcademicInsights.performanceBlock data
                (result (AcademicInsights.internshipBlock data
                   (result (AcademicInsights.cgpaBlock data [])))))))).
Proof.
  unfold AcademicInsights.analyse. now rewrite !result_bind.
Qed.

Lemma analyse_divisions (data : dataset) :
  divisions (AcademicInsights.analyse data) =
  divisions (AcademicInsights.cgpaBlock data []) ++
  divisions (AcademicInsights.internshipBlock data
               (result (AcademicInsights.cgpaBlock data []))).
Proof.
  unfold AcademicInsights.analyse. rewrite !divisions_bind. simpl.
  now rewrite app_nil_r.
Qed.














End InsightFacts.

(** ** Unguarded averages of the academic insight generator *)

Section InsightAverages.
Import JSString JSObject JSNumber Csv Traced Insights AcademicInsights Spec Scenarios.

Lemma filter_none {A : Type} (p : A -> bool) (l : list A) :
  (forall x, In x l -> p x = false) -> filter p l = [].
Proof.
  induction l as [|a l IH]; simpl; trivial.
  intros H. rewrite (H a) by (now left). apply IH. intros x Hx. apply H. now right.
Qed.

Lemma analyse_keeps_cgpa (data : dataset) (x : Insight) :
  In x (result (cgpaBlock data [])) -> In x (result (analyse data)).
Proof.
  intros H. rewrite analyse_result.
  do 4 apply fixedBlock_keeps. now apply performanceBlock_keeps, internshipBlock_keeps.
Qed.

Lemma analyse_keeps_internship (data : dataset) (x : Insight) :
  In x (result (internshipBlock data (result (cgpaBlock data [])))) ->
  In x (result (analyse data)).
Proof.
  intros H. rewrite analyse_result.
  do 4 apply fixedBlock_keeps. now apply performanceBlock_keeps.
Qed.

(** C10.  When some record has a key containing cgpa or gpa and no record
    passes the placement test, the average CGPA is the recorded division
    of 0 by the count 0 and the entry titled CGPA Impact on Placement
    Success interpolates NaN; when some record has a key containing
    internship and no record passes the internship test, the placement
    rate of the entry titled Internship Experience Advantage is again a
    division by the count 0 and NaN is interpolated. *)
Theorem insight_averages_divide_by_empty_subset (data : dataset) :
  ((exists record k, In record data /\ In k (keys record) /\ isCgpaKey k = true) ->
   (forall record, In record data -> isPlaced record = false) ->
   In {| dividend := 0%float; divisor := 0 |} (divisions (generateInsights data [])) /\
   exists entry,
     In entry (result (generateInsights data [])) /\
     title entry = "CGPA Impact on Placement Success" /\
     description entry = description (cgpaInsight nan) /\
     interpolated entry = [nan]) /\
  ((exists record k, In record data /\ In k (keys record) /\ isInternshipKey k = true) ->
   (forall record, In record data -> hasInternship record = false) ->
   In {| dividend := 0%float; divisor := 0 |} (divisions (generateInsights data [])) /\
   exists entry,
     In entry (result (generateInsights data [])) /\
     title entry = "Internship Experience Advantage" /\
     description entry = description (internshipInsight nan) /\
     interpolated entry = [nan]).
Proof.
  split; intros Hkey Hnone.
  - assert (Hdata : generateInsights data [] = analyse data).
    { unfold generateInsights. destruct Hkey as (record & _ & Hr & _).
      now destruct data. }
    rewrite Hdata, analyse_divisions.
    apply findRecord_some in Hkey as (found & Hfound).
    assert (B : cgpaBlock data [] =
                ([cgpaInsight nan], [{| dividend := 0%float; divisor := 0 |}])).
    { unfold cgpaBlock. rewrite Hfound, (filter_none _ _ Hnone). reflexivity. }
    split.
    + rewrite B. simpl. tauto.
    + exists (cgpaInsight nan). repeat split.
      apply analyse_keeps_cgpa. rewrite B. simpl. tauto.
  - assert (Hdata : generateInsights data [] = analyse data).
    { unfold generateInsights. destruct Hkey as (record & _ & Hr & _).
      now destruct data. }
    rewrite Hdata, analyse_divisions.
    apply findRecord_some in Hkey as (found & Hfound).
    assert (B : forall acc, internshipBlock data acc =
                (acc ++ [internshipInsight nan],
                 [{| dividend := 0%float; divisor := 0 |}])).
    { intros acc. unfold internshipBlock.
      rewrite Hfound, (filter_none _ _ Hnone). reflexivity. }
    split.
    + rewrite B. apply in_or_app. right. simpl. tauto.
    + exists (internshipInsight nan). repeat split.
      apply analyse_keeps_internship. rewrite B. apply in_or_app. right. simpl. tauto.
Qed.

Lemma insight_averages_divide_by_empty_subset_sample :
  In {| dividend := 0%float; divisor := 0 |}
     (divisions (generateInsights (parseCSV nobodyPlaced) [])) /\
  (exists entry,
      In entry (result (generateInsights (parseCSV nobodyPlaced) [])) /\
      title entry = "CGPA Impact on Placement Success" /\
      description entry = description (cgpaInsight nan) /\
      interpolated entry = [nan]) /\
  (exists entry,
      In entry (result (generateInsights (parseCSV nobodyPlaced) [])) /\
      title entry = "Internship Experience Advantage" /\
      description entry = description (internshipInsight nan) /\
      interpolated entry = [nan]).
Proof.
  destruct (insight_averages_divide_by_empty_subset (parseCSV nobodyPlaced)) as [C I].
  assert (Hrec : In [("Name", "A"); ("CGPA", "8.5"); ("Internship", "No");
                     ("Placement", "Not Placed")] (parseCSV nobodyPlaced)).
  { vm_compute. tauto. }
  assert (Hnone : forall p : record -> bool,
             forallb (fun r => negb (p r)) (parseCSV nobodyPlaced) = true ->
             forall r, In r (parseCSV nobodyPlaced) -> p r = false).
  { intros p Hall r Hr. rewrite forallb_forall in Hall.
    apply Hall in Hr. now destruct (p r). }
  destruct C as [Cd Ce].
  - eexists _, "CGPA". split; [exact Hrec|]. split; [vm_compute; tauto|reflexivity].
  - apply Hnone. reflexivity.
  - destruct I as [_ Ie].
    + eexists _, "Internship". split; [exact Hrec|]. split; [vm_compute; tauto|reflexivity].
    + apply Hnone. reflexivity.
    + repeat split; assumption.
Defined.

End InsightAverages.

(** ** Instances on the scenario texts *)

Section Instances.
Import JSString JSObject JSNumber Csv Traced Dashboard Insights Spec Scenarios.





End Instances.

(* ================================================================== *)
(** * Part III: further properties of the code *)
(* ================================================================== *)

(** ** More on the CSV parser *)

Section CsvShape.
Import JSString JSObject Csv Spec Scenarios.

Local Abbreviation zipStep values :=
  (fun '(obj, index) header => (assign obj header (valueAt values index), S index)).

Lemma define_same_keys (o o' : object) (k v v' : string) :
  map fst o = map fst o' -> map fst (define o k v) = map fst (define o' k v').
Proof.
  revert o'. induction o as [|[k0 v0] rest IH]; intros [|[k1 v1] rest'] H;
    simpl in H; try discriminate; trivial.
  inversion H; subst. simpl.
  destruct (String.eqb k1 k); simpl; f_equal; auto.
Qed.

Lemma zip_fold_same_keys (values values' headers : list string) :
  forall (o o' : object) (i i' : nat),
    map fst o = map fst o' ->
    map fst (fst (fold_left (zipStep values) headers (o, i))) =
    map fst (fst (fold_left (zipStep values') headers (o', i'))).
Proof.
  induction headers as [|h headers IH]; intros o o' i i' H; simpl; trivial.
  apply IH. unfold assign. destruct (String.eqb h "__proto__"); trivial.
  now apply define_same_keys.
Qed.

Lemma zipRow_same_keys (headers values values' : list string) :
  map fst (zipRow headers values) = map fst (zipRow headers values').
Proof.
  unfold zipRow. now apply zip_fold_same_keys.
Qed.

Lemma In_parseCSV (text : string) (r : record) :
  In r (parseCSV text) ->
  exists header rows row,
    nonBlankLines text = header :: rows /\ In row rows /\
    r = zipRow (cells header) (cells row).
Proof.
  unfold parseCSV. destruct (nonBlankLines text) as [|header rows]; [intros []|].
  intros H. apply in_map_iff in H as (row & <- & Hrow).
  now exists header, rows, row.
Qed.

(** X1.  All records of one parse have the same property names in the same
    order, so the columns the table takes from the first record are the
    keys of every record. *)
Theorem parseCSV_records_share_keys (text : string) (r1 r2 : record) :
  In r1 (parseCSV text) ->
  In r2 (parseCSV text) ->
  map fst r1 = map fst r2 /\
  keys r1 = keys r2 /\
  DataTable.columns (parseCSV text) = keys r1.
Proof.
  intros H1 H2.
  destruct (In_parseCSV _ _ H1) as (header & rows & row1 & Hlines & Hrow1 & ->).
  destruct (In_parseCSV _ _ H2) as (header' & rows' & row2 & Hlines' & _ & ->).
  rewrite Hlines in Hlines'. inversion Hlines'; subst header' rows'.
  assert (K : forall v v', keys (zipRow (cells header) v) = keys (zipRow (cells header) v')).
  { intros v v'. unfold keys. now rewrite (zipRow_same_keys (cells header) v v'). }
  repeat split.
  - apply zipRow_same_keys.
  - apply K.
  - unfold parseCSV. rewrite Hlines.
    destruct rows as [|row rows]; [destruct Hrow1|]. simpl. apply K.
Qed.

Lemma parseCSV_records_share_keys_sample :
  exists r1 r2,
    nth_error (parseCSV scenarioA) 0 = Some r1 /\
    nth_error (parseCSV scenarioA) 1 = Some r2 /\
    keys r1 = keys r2 /\
    DataTable.columns (parseCSV scenarioA) = ["Name"; "Status"].
Proof.
  exists [("Name", "A"); ("Status", "Placed")], [("Name", "B"); ("Status", "Not Placed")].
  destruct (parseCSV_records_share_keys scenarioA
              [("Name", "A"); ("Status", "Placed")]
              [("Name", "B"); ("Status", "Not Placed")]) as (_ & K & C).
  - vm_compute. tauto.
  - vm_compute. tauto.
  - split; [reflexivity|]. split; [reflexivity|]. split; [exact K|].
    rewrite C. reflexivity.
Defined.

Lemma removeAll_absent (c : ascii) (s : string) :
  ~ In c (list_ascii_of_string (removeAll c s)).
Proof.
  induction s as [|d r IH]; simpl; [tauto|].
  destruct (Ascii.eqb_spec d c); simpl; [exact IH|]. intros [H|H]; auto.
Qed.

Lemma In_cells_unquoted (line cell : string) :
  In cell (cells line) -> ~ In dquote (list_ascii_of_string cell).
Proof.
  unfold cells. intros H. apply in_map_iff in H as (v & <- & _).
  apply removeAll_absent.
Qed.

Lemma valueAt_cases (values : list string) (i : nat) :
  valueAt values i = EmptyString \/ In (valueAt values i) values.
Proof.
  unfold valueAt. destruct (nth_error values i) as [v|] eqn:E; simpl; [|tauto].
  destruct v as [|c s]; simpl; [tauto|]. right. eapply nth_error_In; eassumption.
Qed.

Lemma In_define_entry (o : object) (k v : string) (e : string * string) :
  In e (define o k v) -> e = (k, v) \/ In e o.
Proof.
  induction o as [|[k0 v0] rest IH]; simpl.
  - intuition.
  - destruct (String.eqb_spec k0 k); simpl.
    + subst. intuition.
    + intuition.
Qed.

Lemma In_zip_fold_entry (values headers : list string) :
  forall (o : object) (i : nat) (e : string * string),
    In e (fst (fold_left (zipStep values) headers (o, i))) ->
    In e o \/
    (In (fst e) headers /\ (snd e = EmptyString \/ In (snd e) values)).
Proof.
  induction headers as [|h headers IH]; intros o i e H; simpl in H; [tauto|].
  apply IH in H as [H|[Hk Hv]]; [|simpl; tauto].
  unfold assign in H. destruct (String.eqb h "__proto__"); [tauto|].
  apply In_define_entry in H as [->|H]; [|tauto].
  right. simpl. split; [tauto|]. apply valueAt_cases.
Qed.

(** X2.  No property name and no value of a parsed record contains a
    double-quote character. *)
Theorem parseCSV_leaves_no_quote (text : string) (r : record) (k v : string) :
  In r (parseCSV text) ->
  In (k, v) r ->
  ~ In dquote (list_ascii_of_string k) /\ ~ In dquote (list_ascii_of_string v).
Proof.
  intros Hr He.
  destruct (In_parseCSV _ _ Hr) as (header & rows & row & _ & _ & ->).
  unfold zipRow in He. apply In_zip_fold_entry in He as [[]|[Hk Hv]].
  simpl in Hk, Hv. split.
  - eapply In_cells_unquoted; eassumption.
  - destruct Hv as [->|Hv]; [simpl; tauto|].
    eapply In_cells_unquoted; eassumption.
Qed.

Lemma parseCSV_leaves_no_quote_sample :
  parseCSV paddedSentinel = [[("Company", " Not Placed ")]] /\
  ~ In dquote (list_ascii_of_string " Not Placed ").
Proof.
  split; [reflexivity|].
  apply (parseCSV_leaves_no_quote paddedSentinel [("Company", " Not Placed ")] "Company").
  - vm_compute. tauto.
  - simpl. tauto.
Defined.

Local Abbreviation withCR s := (s ++ String CR EmptyString)%string.

Lemma blank_withCR (s : string) : blank (withCR s) = blank s.
Proof.
  induction s as [|c r IH]; simpl; [reflexivity|]. now rewrite IH.
Qed.

Lemma trimEnd_withCR (s : string) : trimEnd (withCR s) = trimEnd s.
Proof.
  induction s as [|c r IH]; simpl; [reflexivity|]. now rewrite IH.
Qed.

Lemma trimStart_withCR (s : string) :
  trimStart (withCR s) = if blank s then EmptyString else withCR (trimStart s).
Proof.
  induction s as [|c r IH]; simpl; [reflexivity|].
  destruct (isWhiteSpace c); simpl; [exact IH|reflexivity].
Qed.

Lemma trim_withCR (s : string) : trim (withCR s) = trim s.
Proof.
  unfold trim. rewrite trimStart_withCR. destruct (blank s) eqn:B.
  - apply trimStart_empty_iff in B. now rewrite B.
  - apply trimEnd_withCR.
Qed.

Lemma split_withCR (sep : ascii) (s : string) :
  Ascii.eqb CR sep = false ->
  exists init last,
    split sep s = init ++ [last] /\ split sep (withCR s) = init ++ [withCR last].
Proof.
  intros Hsep. induction s as [|c r (init & last & Hs & Hcr)]; cbn [split append].
  - rewrite Hsep. now exists [], EmptyString.
  - destruct (Ascii.eqb c sep).
    + exists (EmptyString :: init), last. now rewrite Hs, Hcr.
    + rewrite Hs, Hcr. destruct init as [|p ps]; simpl.
      * now exists [], (String c last).
      * now exists (String c p :: ps), last.
Qed.

Lemma cells_withCR (line : string) : cells (withCR line) = cells line.
Proof.
  unfold cells.
  destruct (split_withCR comma line eq_refl) as (init & last & -> & ->).
  rewrite !map_app. simpl. now rewrite trim_withCR.
Qed.

Lemma filter_Forall2 {A : Type} (R : A -> A -> Prop) (f : A -> bool) (l l' : list A) :
  (forall x y, R x y -> f y = f x) ->
  Forall2 R l l' -> Forall2 R (filter f l) (filter f l').
Proof.
  intros Hf. induction 1 as [|x y l l' Hxy _ IH]; simpl; [constructor|].
  rewrite (Hf x y Hxy). destruct (f x); [constructor|]; trivial.
Qed.

(** X3.  A carriage return at the end of lines changes nothing: a text
    whose lines are those of another, some of them followed by a carriage
    return, parses to the same records. *)
Theorem parseCSV_ignores_carriage_returns (text text' : string) :
  Forall2 (fun l l' => l' = l \/ l' = (l ++ String CR EmptyString)%string)
          (split LF text) (split LF text') ->
  parseCSV text' = parseCSV text.
Proof.
  intros H.
  assert (C : forall l l', l' = l \/ l' = withCR l -> cells l' = cells l).
  { intros l l' [->| ->]; [reflexivity|apply cells_withCR]. }
  assert (F : Forall2 (fun l l' => l' = l \/ l' = withCR l)
                      (nonBlankLines text) (nonBlankLines text')).
  { unfold nonBlankLines. apply filter_Forall2; trivial.
    intros l l' [->| ->]; [reflexivity|]. now rewrite trim_withCR. }
  unfold parseCSV. destruct F as [|header header' rows rows' Hh Hrows]; [reflexivity|].
  rewrite (C _ _ Hh).
  induction Hrows as [|row row' rows rows' Hr _ IH]; simpl; [reflexivity|].
  now rewrite (C _ _ Hr), IH.
Qed.

Lemma parseCSV_ignores_carriage_returns_sample :
  parseCSV ("Name,Status" ++ String CR (String LF ("A,Placed" ++ String CR (String LF EmptyString))))
  = [[("Name", "A"); ("Status", "Placed")]].
Proof.
  rewrite (parseCSV_ignores_carriage_returns (unlines ["Name,Status"; "A,Placed"])).
  - reflexivity.
  - vm_compute.
    constructor; [right; reflexivity|].
    constructor; [right; reflexivity|].
    constructor; [left; reflexivity|]. constructor.
Defined.

End CsvShape.

(** ** More on the metrics *)

Section MetricsShape.
Import JSString JSObject JSNumber Csv Traced Spec Scenarios.

Lemma prop_absent_key (r : record) (name : string) :
  ~ In name (keys r) -> prop r name = None.
Proof.
  intros H. apply prop_None_iff. intros Hin. apply H, In_keys, Hin.
Qed.

Lemma parsedValues_none (role : record -> JSValue.value) (data : dataset) :
  (forall r, In r data -> role r = None) -> parsedValues role data = [].
Proof.
  unfold parsedValues. induction data as [|r data IH]; simpl; trivial.
  intros H. rewrite (H r) by (now left). simpl. apply IH.
  intros r' Hr'. apply H. now right.
Qed.

(** X4.  The metrics read the exact property names: when no record has a
    property named Placement, Placed or Status, no student counts as
    placed; when none has CGPA or cgpa, the average CGPA is 0; when none
    has Internship Experience, Internship or internship, no student counts
    as having an internship; whatever other columns the records have. *)
Theorem metrics_read_exact_property_names (data : dataset) :
  ((forall r k, In r data -> In k (keys r) ->
                ~ In k ["Placement"; "Placed"; "Status"]) ->
   Dashboard.placedStudents (Dashboard.metrics data) = 0) /\
  ((forall r k, In r data -> In k (keys r) -> ~ In k ["CGPA"; "cgpa"]) ->
   Dashboard.averageCGPA (Dashboard.metrics data) = 0%float) /\
  ((forall r k, In r data -> In k (keys r) ->
                ~ In k ["Internship Experience"; "Internship"; "internship"]) ->
   Dashboard.withInternship (Dashboard.metrics data) = 0).
Proof.
  assert (A : forall (names : list string) (r : record) (name : string),
             (forall k, In k (keys r) -> ~ In k names) -> In name names ->
             prop r name = None).
  { intros names r name H Hin. apply prop_absent_key. intros Hk. exact (H name Hk Hin). }
  split; [|split]; intros H.
  - rewrite metrics_fields. simpl. rewrite filter_none; trivial.
    intros r Hr. unfold Dashboard.isPlaced, Dashboard.placementOf.
    rewrite !(A ["Placement"; "Placed"; "Status"] r) by (simpl; eauto).
    reflexivity.
  - rewrite averageCGPA_mean, parsedValues_none; trivial.
    intros r Hr. unfold Dashboard.cgpaOf.
    rewrite !(A ["CGPA"; "cgpa"] r) by (simpl; eauto). reflexivity.
  - rewrite metrics_fields. simpl. rewrite filter_none; trivial.
    intros r Hr. unfold Dashboard.hasInternship, Dashboard.internshipOf.
    rewrite !(A ["Internship Experience"; "Internship"; "internship"] r)
      by (simpl; eauto).
    reflexivity.
Qed.

Lemma metrics_read_exact_property_names_sample :
  option_map AcademicDashboard.placementKey
    (AcademicDashboard.getChartConfig (parseCSV lowerCaseHeaders))
  = Some (Some "placement status") /\
  Dashboard.placedStudents (Dashboard.metrics (parseCSV lowerCaseHeaders)) = 0 /\
  Dashboard.averageCGPA (Dashboard.metrics (parseCSV lowerCaseHeaders)) = 0%float.
Proof.
  assert (K : forall r k, In r (parseCSV lowerCaseHeaders) -> In k (keys r) ->
                          In k ["name"; "Cgpa"; "placement status"]).
  { intros r k Hr Hk. vm_compute in Hr.
    destruct Hr as [<-|[<-|[]]]; vm_compute in Hk; vm_compute; tauto. }
  destruct (metrics_read_exact_property_names (parseCSV lowerCaseHeaders)) as (P & C & _).
  split; [reflexivity|]. split.
  - apply P. intros r k Hr Hk Hbad. specialize (K r k Hr Hk).
    simpl in K, Hbad. intuition congruence.
  - apply C. intros r k Hr Hk Hbad. specialize (K r k Hr Hk).
    simpl in K, Hbad. intuition congruence.
Defined.

Lemma filter_length_bound {A : Type} (p : A -> bool) (l : list A) :
  List.length (filter p l) <= List.length l.
Proof.
  induction l as [|a l IH]; simpl; [lia|]. destruct (p a); simpl; lia.
Qed.

Lemma package_metrics_fields (data : dataset) :
  PackageMetrics.totalStudents (PackageMetrics.metrics data) = List.length data /\
  PackageMetrics.placedStudents (PackageMetrics.metrics data)
  = List.length (filter PackageMetrics.isPlaced data) /\
  PackageMetrics.averageSalary (PackageMetrics.metrics data)
  = (let '(totalSalary, salaryCount) :=
       fold_left PackageMetrics.salaryStep data (0%float, 0) in
     if 0 <? salaryCount then (totalSalary / Num salaryCount)%float else 0%float).
Proof.
  destruct data as [|r data]; [repeat split|].
  unfold PackageMetrics.metrics, PackageMetrics.metricsTraced, Dashboard.percentage.
  change (List.length (r :: data) =? 0) with false.
  change (0 <? List.length (r :: data)) with true. cbv iota.
  destruct (fold_left PackageMetrics.salaryStep (r :: data) (0%float, 0))
    as [totalSalary salaryCount].
  destruct (0 <? salaryCount); repeat split.
Qed.

Lemma add_length_bound (s : list string) (x : string) :
  List.length (JSSet.add String.eqb s x) <= S (List.length s).
Proof.
  unfold JSSet.add. destruct (JSSet.has String.eqb s x); [lia|].
  rewrite length_app. simpl. lia.
Qed.

Lemma companies_length_bound (data : dataset) :
  forall acc : list string,
    List.length (fold_left PackageMetrics.companyStep data acc)
    <= List.length acc + List.length data.
Proof.
  induction data as [|r data IH]; intros acc; simpl; [lia|].
  etransitivity; [apply IH|]. unfold PackageMetrics.companyStep.
  destruct (PackageMetrics.companyOf r PackageMetrics.companyFields) as [c|]; [|lia].
  pose proof (add_length_bound acc c). lia.
Qed.

(** X5.  In both variants of the metrics the number of placed students
    never exceeds the number of students; neither does the number of
    students with an internship, nor the number of distinct companies. *)
Theorem metrics_counts_are_bounded (data : dataset) :
  Dashboard.placedStudents (Dashboard.metrics data)
  <= Dashboard.totalStudents (Dashboard.metrics data) /\
  Dashboard.withInternship (Dashboard.metrics data)
  <= Dashboard.totalStudents (Dashboard.metrics data) /\
  PackageMetrics.placedStudents (PackageMetrics.metrics data)
  <= PackageMetrics.totalStudents (PackageMetrics.metrics data) /\
  PackageMetrics.topCompanies (PackageMetrics.metrics data)
  <= PackageMetrics.totalStudents (PackageMetrics.metrics data).
Proof.
  rewrite metrics_fields. simpl.
  destruct (package_metrics_fields data) as (-> & -> & _).
  rewrite topCompanies_fold. unfold JSSet.size.
  repeat split; try apply filter_length_bound.
  apply (companies_length_bound data []).
Qed.









End MetricsShape.

(** ** Fallbacks of the chart configuration *)

Section ChartKeys.
Import JSString JSObject Csv Spec Shape Scenarios.

Lemma findKey_resolvedBy (p : string -> bool) (fallback : JSValue.value)
  (headers values : list string) :
  headerPredicate p ->
  resolvedBy p fallback headers
    (Dashboard.findKey p fallback (keys (zipRow headers values))).
Proof.
  intros Hp. unfold resolvedBy, Dashboard.findKey.
  rewrite (find_keys_zipRow p headers values Hp).
  destruct Hp as (_ & _ & Hempty). split.
  - intros Hnone. now rewrite find_all_false.
  - intros (h0 & Hin0 & Hp0).
    destruct (find p headers) as [h|] eqn:E.
    + apply find_some in E as [Hin Hh]. exists h.
      destruct h; [congruence|]. repeat split; trivial.
    + now rewrite (find_none _ _ E h0 Hin0) in Hp0.
Qed.

(** X9.  On a parsed text with at least one data row, each key of the two
    chart configurations is the role's fallback when no header passes the
    role's test, and otherwise a header that passes it.  The fallbacks of
    the academic configuration are the literal names CGPA, Placement,
    Internship Experience and Academic Performance; those of the page's
    configuration are the second and the first key of the first record.
    Without a data row there is no configuration. *)
Theorem chart_keys_match_or_fall_back (text header : string) (rows : list string) :
  nonBlankLines text = header :: rows ->
  match rows with
  | [] =>
      AcademicDashboard.getChartConfig (parseCSV text) = None /\
      Dashboard.getChartConfig (parseCSV text) = None
  | row :: _ =>
      (exists cfg,
          AcademicDashboard.getChartConfig (parseCSV text) = Some cfg /\
          resolvedBy AcademicDashboard.isCgpaKey (Some "CGPA") (cells header)
            (AcademicDashboard.cgpaKey cfg) /\
          resolvedBy AcademicDashboard.isPlacementKey (Some "Placement") (cells header)
            (AcademicDashboard.placementKey cfg) /\
          resolvedBy AcademicDashboard.isInternshipKey (Some "Internship Experience")
            (cells header) (AcademicDashboard.internshipKey cfg) /\
          resolvedBy AcademicDashboard.isAcademicPerfKey (Some "Academic Performance")
            (cells header) (AcademicDashboard.academicPerfKey cfg)) /\
      (exists cfg,
          Dashboard.getChartConfig (parseCSV text) = Some cfg /\
          resolvedBy Dashboard.isDepartmentKey
            (nth_error (keys (zipRow (cells header) (cells row))) 1) (cells header)
            (Dashboard.departmentKey cfg) /\
          resolvedBy Dashboard.isCompanyKey
            (nth_error (keys (zipRow (cells header) (cells row))) 0) (cells header)
            (Dashboard.companyKey cfg))
  end.
Proof.
  intros Hlines. rewrite (parseCSV_rows _ _ _ Hlines).
  destruct rows as [|row rows]; [split; reflexivity|].
  split; eexists; (split; [reflexivity|]); simpl.
  - split; [|split; [|split]]; apply findKey_resolvedBy.
    + apply isCgpaKey_header.
    + apply isPlacementKey_header.
    + apply isInternshipKey_header.
    + apply isAcademicPerfKey_header.
  - split; apply findKey_resolvedBy.
    + apply isDepartmentKey_header.
    + apply isCompanyKey_header.
Qed.

Lemma chart_keys_match_or_fall_back_sample :
  option_map Dashboard.departmentKey (Dashboard.getChartConfig (parseCSV scenarioA))
  = Some (Some "Status") /\
  option_map Dashboard.departmentKey (Dashboard.getChartConfig (parseCSV scenarioD))
  = Some None.
Proof.
  pose proof (chart_keys_match_or_fall_back scenarioA "Name,Status"
                ["A,Placed"; "B,Not Placed"] eq_refl) as HA.
  pose proof (chart_keys_match_or_fall_back scenarioD "Notes"
                ["first remark"; "second remark"] eq_refl) as HD.
  cbv beta iota in HA, HD.
  destruct HA as (_ & cfgA & -> & [FA _] & _).
  destruct HD as (_ & cfgD & -> & [FD _] & _).
  simpl. split; f_equal.
  - rewrite FA; [reflexivity|].
    intros h Hh. vm_compute in Hh. destruct Hh as [<-|[<-|[]]]; reflexivity.
  - rewrite FD; [reflexivity|].
    intros h Hh. vm_compute in Hh. destruct Hh as [<-|[]]; reflexivity.
Defined.

End ChartKeys.

(** ** The frequency table of the charts *)

Section ChartTable.
Import JSString JSObject Csv DashboardChart Shape Scenarios.

Lemma own_put_same (acc : table) (name : string) (t : tally) :
  own (put acc name t) name = Some t.
Proof.
  induction acc as [|[k t'] rest IH]; simpl.
  - now rewrite String.eqb_refl.
  - destruct (String.eqb k name) eqn:E; simpl; rewrite E; trivial.
Qed.

Lemma own_put_other (acc : table) (name name' : string) (t : tally) :
  name' <> name -> own (put acc name' t) name = own acc name.
Proof.
  intros N. induction acc as [|[k t'] rest IH]; simpl.
  - destruct (String.eqb_spec name' name); congruence.
  - destruct (String.eqb_spec k name'); simpl.
    + subst. destruct (String.eqb_spec name' name); congruence.
    + now rewrite IH.
Qed.

Lemma In_put_keys (acc : table) (name x : string) (t : tally) :
  In x (map fst (put acc name t)) <-> In x (map fst acc) \/ x = name.
Proof.
  induction acc as [|[k t'] rest IH]; simpl.
  - intuition.
  - destruct (String.eqb_spec k name); simpl.
    + subst. intuition.
    + rewrite IH. intuition.
Qed.

Lemma NoDup_put (acc : table) (name : string) (t : tally) :
  NoDup (map fst acc) -> NoDup (map fst (put acc name t)).
Proof.
  induction acc as [|[k t'] rest IH]; simpl; intros H.
  - constructor; [tauto|constructor].
  - inversion H as [|? ? Hk Hrest]; subst.
    destruct (String.eqb_spec k name); simpl.
    + now constructor.
    + constructor; [|now apply IH].
      rewrite In_put_keys. intros [Hin|Heq]; [tauto|congruence].
Qed.

Lemma total_put_new (acc : table) (name : string) (v : nat) :
  own acc name = None -> total (put acc name (Count v)) = v + total acc.
Proof.
  induction acc as [|[k t'] rest IH]; simpl; intros H.
  - lia.
  - destruct (String.eqb k name); [discriminate|]. simpl.
    rewrite (IH H). destruct t'; lia.
Qed.

Lemma total_put_old (acc : table) (name : string) (k v : nat) :
  own acc name = Some (Count k) ->
  total (put acc name (Count v)) + k = v + total acc.
Proof.
  induction acc as [|[k0 t'] rest IH]; simpl; intros H; [discriminate|].
  destruct (String.eqb k0 name); simpl.
  - inversion H; subst. lia.
  - specialize (IH H). destruct t'; lia.
Qed.

Lemma inherited_proto (name : string) :
  inherited name = false -> String.eqb name "__proto__" = false.
Proof.
  intros H. destruct (String.eqb_spec name "__proto__") as [->|]; [|reflexivity].
  discriminate H.
Qed.

(** The loop keeps, for every name, the number of items seen with it. *)
Lemma tally_fold (nameKey : string) (data : dataset) :
  forall (acc : table) (c : string -> nat),
    (forall item, In item data -> inherited (nameOf nameKey item) = false) ->
    (forall name, own acc name = tallyOf (c name)) ->
    NoDup (map fst acc) ->
    (forall name,
        own (fold_left (tallyStep nameKey) data acc) name
        = tallyOf (c name + count_occ string_dec (map (nameOf nameKey) data) name)) /\
    NoDup (map fst (fold_left (tallyStep nameKey) data acc)) /\
    total (fold_left (tallyStep nameKey) data acc) = total acc + List.length data.
Proof.
  induction data as [|item data IH]; intros acc c Hnames Hown Hnodup.
  - simpl. split; [intros name; now rewrite Nat.add_0_r|].
    split; [exact Hnodup|lia].
  - cbn [fold_left map count_occ List.length].
    assert (Hitem : inherited (nameOf nameKey item) = false) by (apply Hnames; now left).
    set (n0 := nameOf nameKey item) in *.
    assert (Hstep : tallyStep nameKey acc item = put acc n0 (Count (S (c n0)))).
    { unfold tallyStep. fold n0. unfold holds, increment, store.
      rewrite (Hown n0), (inherited_proto n0 Hitem).
      destruct (c n0) as [|k]; simpl; [now rewrite Hitem|reflexivity]. }
    rewrite Hstep.
    destruct (IH (put acc n0 (Count (S (c n0))))
                 (fun name => if string_dec n0 name then S (c name) else c name))
      as (Hown' & Hnodup' & Htotal').
    + intros i Hi. apply Hnames. now right.
    + intros name. destruct (string_dec n0 name) as [<-|N].
      * apply own_put_same.
      * rewrite own_put_other by exact N. apply Hown.
    + now apply NoDup_put.
    + repeat split; trivial.
      * intros name. rewrite Hown'.
        destruct (string_dec n0 name); f_equal; lia.
      * rewrite Htotal'. specialize (Hown n0).
        destruct (c n0) as [|k] eqn:E; simpl in Hown.
        -- rewrite (total_put_new _ _ _ Hown). lia.
        -- pose proof (total_put_old _ _ _ (S (S k)) Hown). lia.
Qed.

Lemma Permutation_insertIndex (n : N) (k : string) (l : list (N * string)) :
  Permutation (insertIndex n k l) ((n, k) :: l).
Proof.
  induction l as [|[m k'] rest IH]; simpl; [reflexivity|].
  destruct (N.leb n m); [reflexivity|].
  rewrite IH. apply perm_swap.
Qed.

Lemma Permutation_sortIndices (l : list (N * string)) : Permutation (sortIndices l) l.
Proof.
  induction l as [|[n k] rest IH]; simpl; [reflexivity|].
  rewrite Permutation_insertIndex. now constructor.
Qed.

Lemma indexKeys_names (ks : list string) :
  map snd (indexKeys ks) = filter isArrayIndex ks.
Proof.
  unfold indexKeys, isArrayIndex. induction ks as [|k ks IH]; simpl; trivial.
  rewrite map_app, IH. now destruct (arrayIndex k).
Qed.

Lemma Permutation_partition {A : Type} (p : A -> bool) (l : list A) :
  Permutation (filter p l ++ filter (fun x => negb (p x)) l) l.
Proof.
  induction l as [|a l IH]; simpl; [reflexivity|].
  destruct (p a); simpl.
  - now constructor.
  - rewrite <- Permutation_middle. now constructor.
Qed.

(** [Object.keys] lists every own property name once. *)
Lemma Permutation_keys (o : object) : Permutation (keys o) (map fst o).
Proof.
  unfold keys. rewrite (Permutation_map snd (Permutation_sortIndices _)), indexKeys_names.
  apply Permutation_partition.
Qed.

Lemma Permutation_flat_map_list {A B : Type} (f : A -> list B) (l l' : list A) :
  Permutation l l' -> Permutation (flat_map f l) (flat_map f l').
Proof.
  induction 1 as [|x l l' _ IH|x y l|l l' l'' _ IH1 _ IH2]; simpl.
  - constructor.
  - now apply Permutation_app_head.
  - rewrite !app_assoc. apply Permutation_app_tail, Permutation_app_comm.
  - eapply Permutation_trans; eassumption.
Qed.

Lemma own_of_entry (acc : table) :
  NoDup (map fst acc) -> forall e, In e acc -> own acc (fst e) = Some (snd e).
Proof.
  induction acc as [|[k t] rest IH]; simpl; intros H e He; [destruct He|].
  inversion H as [|? ? Hk Hrest]; subst.
  destruct He as [<-|He]; simpl.
  - now rewrite String.eqb_refl.
  - destruct (String.eqb_spec k (fst e)) as [->|N].
    + exfalso. apply Hk. now apply in_map.
    + now apply IH.
Qed.

Lemma lookup_each (acc l : table) :
  (forall e, In e l -> own acc (fst e) = Some (snd e)) ->
  flat_map (fun name => match own acc name with
                        | Some t => [(name, t)]
                        | None => []
                        end) (map fst l) = l.
Proof.
  induction l as [|[k t] rest IH]; simpl; intros H; trivial.
  pose proof (H (k, t) (or_introl eq_refl)) as Hk. simpl in Hk.
  rewrite Hk. simpl. f_equal. apply IH.
  intros e He. apply H. now right.
Qed.

(** [Object.entries] lists the own properties, each of them once. *)
Lemma Permutation_entries (acc : table) :
  NoDup (map fst acc) -> Permutation (entries acc) acc.
Proof.
  intros H. unfold entries.
  rewrite (Permutation_flat_map_list _ _ _ (Permutation_keys _)).
  assert (E : map fst (map (fun e : string * tally => (fst e, EmptyString)) acc)
              = map fst acc).
  { rewrite map_map. now apply map_ext. }
  rewrite E, (lookup_each acc acc); [reflexivity|]. now apply own_of_entry.
Qed.

Lemma total_Permutation (l l' : table) : Permutation l l' -> total l = total l'.
Proof.
  induction 1 as [|[k t] l l' _ IH|[k t] [k' t'] l|l l' l'' _ IH1 _ IH2]; simpl.
  - reflexivity.
  - now rewrite IH.
  - destruct t, t'; lia.
  - congruence.
Qed.

Lemma In_entries (acc : table) (name : string) (t : tally) :
  In (name, t) (entries acc) <-> own acc name = Some t.
Proof.
  unfold entries. rewrite in_flat_map. split.
  - intros (k & _ & H). destruct (own acc k) as [t'|] eqn:E; [|destruct H].
    destruct H as [H|[]]. inversion H; subst. exact E.
  - intros H. exists name. rewrite H. split; [|now left].
    apply In_keys. rewrite map_map.
    clear -H. induction acc as [|[k t'] rest IH]; simpl in *; [discriminate|].
    destruct (String.eqb_spec k name); [now left|right; now apply IH].
Qed.

(** X10.  The chart data is the frequency table of the names: when neither
    the name key nor any name is a property name inherited from
    [Object.prototype], each name that occurs is listed once with the
    number of records that carry it (records with a missing or empty value
    under the name [Unknown]), names that do not occur are not listed, and
    the counts add up to the number of records. *)
Theorem chart_counts_occurrences (data : dataset) (nameKey : string) :
  inherited nameKey = false ->
  (forall item, In item data -> inherited (nameOf nameKey item) = false) ->
  (forall name t,
      In (name, t) (entries (processedData data nameKey)) <->
      tallyOf (count_occ string_dec (map (nameOf nameKey) data) name) = Some t) /\
  NoDup (map fst (entries (processedData data nameKey))) /\
  total (entries (processedData data nameKey)) = List.length data.
Proof.
  intros _ Hnames.
  destruct (tally_fold nameKey data [] (fun _ => 0) Hnames (fun _ => eq_refl) (NoDup_nil _))
    as (Hown & Hnodup & Htotal).
  fold (processedData data nameKey) in Hown, Hnodup, Htotal.
  pose proof (Permutation_entries _ Hnodup) as P.
  assert (Hcount : forall name,
             own (processedData data nameKey) name
             = tallyOf (count_occ string_dec (map (nameOf nameKey) data) name)).
  { intros name. now rewrite Hown. }
  repeat split.
  - intros H. apply In_entries in H. now rewrite <- Hcount.
  - intros H. apply In_entries. now rewrite Hcount.
  - eapply Permutation_NoDup; [|exact Hnodup].
    apply Permutation_map. now symmetry.
  - rewrite (total_Permutation _ _ P). exact Htotal.
Qed.

Lemma chart_counts_occurrences_sample :
  chartData (parseCSV scenarioC) "Company"
  = Some [("Google", Count 2); ("Microsoft", Count 1); ("Not Placed", Count 1)] /\
  total (entries (processedData (parseCSV scenarioC) "Company")) = 4.
Proof.
  destruct (chart_counts_occurrences (parseCSV scenarioC) "Company") as (_ & _ & T).
  - reflexivity.
  - intros item Hitem. vm_compute in Hitem.
    destruct Hitem as [<-|[<-|[<-|[<-|[]]]]]; reflexivity.
  - split; [reflexivity|exact T].
Defined.

Lemma own_store_origin (acc : table) (n0 name : string) (t : tally) :
  own (store acc n0 t) name <> None -> own acc name <> None \/ name = n0.
Proof.
  unfold store. destruct (String.eqb n0 "__proto__"); [tauto|].
  destruct (string_dec n0 name) as [->|N]; [tauto|].
  rewrite own_put_other by exact N. tauto.
Qed.

(** Every name of the table is the name of some item. *)
Lemma processed_names (nameKey : string) (data : dataset) :
  forall (acc : table) (name : string),
    own (fold_left (tallyStep nameKey) data acc) name <> None ->
    own acc name <> None \/ In name (map (nameOf nameKey) data).
Proof.
  induction data as [|item data IH]; intros acc name H; cbn [fold_left] in H.
  - now left.
  - apply IH in H as [H|H]; [|right; now right].
    unfold tallyStep, increment in H.
    destruct (holds acc (nameOf nameKey item));
      [destruct (own acc (nameOf nameKey item)) as [[k|]|]|];
      apply own_store_origin in H as [H|H]; try tauto; right; left; congruence.
Qed.

(** X11.  The chart of recruiting companies: on a parsed text every name
    it shows is the non-empty value some record holds under the company
    key, and no name is the words not placed in any letter case; the name
    Unknown appears only when it is such a value. *)
Theorem company_chart_lists_recruiters (text : string)
  (rows : list (string * tally)) (name : string) (t : tally) :
  companyChart (parseCSV text) = Some rows ->
  In (name, t) rows ->
  exists cfg item,
    Dashboard.getChartConfig (parseCSV text) = Some cfg /\
    In item (parseCSV text) /\
    prop item (keyName (Dashboard.companyKey cfg)) = Some name /\
    name <> EmptyString /\
    toLowerCase name <> "not placed".
Proof.
  unfold companyChart.
  destruct (Dashboard.getChartConfig (parseCSV text)) as [cfg|]; [|discriminate].
  set (key := keyName (Dashboard.companyKey cfg)).
  unfold chartData.
  destruct (filter (recruited key) (parseCSV text)) as [|r0 rest] eqn:F; [discriminate|].
  intros Hrows Hin. inversion Hrows; subst rows. clear Hrows.
  apply In_entries in Hin.
  assert (Hsome : own (processedData (r0 :: rest) key) name <> None) by congruence.
  apply processed_names in Hsome as [Hsome|Hsome]; [now elim Hsome|].
  apply in_map_iff in Hsome as (item & Hname & Hitem).
  rewrite <- F in Hitem. apply filter_In in Hitem as [Hitem Hrec].
  exists cfg, item. split; [reflexivity|]. split; [exact Hitem|].
  unfold recruited in Hrec. unfold nameOf in Hname. fold key.
  destruct (prop item key) as [company|]; [|discriminate].
  apply andb_true_iff in Hrec as [Htruthy Hsentinel].
  apply negb_true_iff, String.eqb_neq in Hsentinel.
  destruct company as [|c s]; [discriminate|].
  simpl in Hname. subst name. repeat split; trivial. discriminate.
Qed.

Lemma company_chart_lists_recruiters_sample :
  companyChart (parseCSV scenarioC) = Some [("Google", Count 2); ("Microsoft", Count 1)] /\
  exists cfg item,
    Dashboard.getChartConfig (parseCSV scenarioC) = Some cfg /\
    In item (parseCSV scenarioC) /\
    prop item (keyName (Dashboard.companyKey cfg)) = Some "Microsoft" /\
    "Microsoft" <> EmptyString /\
    toLowerCase "Microsoft" <> "not placed".
Proof.
  split; [reflexivity|].
  apply (company_chart_lists_recruiters scenarioC
           [("Google", Count 2); ("Microsoft", Count 1)] "Microsoft" (Count 1)).
  - reflexivity.
  - simpl. tauto.
Defined.

End ChartTable.

(** ** The data table: search *)

Section TableSearch.
Import JSString JSObject Csv DataTable Shape Scenarios.

Lemma append_associative (a b c : string) : ((a ++ b) ++ c = a ++ (b ++ c))%string.
Proof.
  induction a as [|x a IH]; simpl; [reflexivity|]. now rewrite IH.
Qed.

Lemma startsWith_iff (p s : string) :
  startsWith p s = true <-> exists post, s = (p ++ post)%string.
Proof.
  revert s. induction p as [|a p IH]; intros s; simpl.
  - split; [intros _; now exists s|reflexivity].
  - destruct s as [|b s].
    + split; [discriminate|]. intros (post & H). discriminate.
    + rewrite andb_true_iff, IH. split.
      * intros [Hab (post & ->)]. apply Ascii.eqb_eq in Hab. subst. now exists post.
      * intros (post & H). inversion H; subst. split; [apply Ascii.eqb_refl|now exists post].
Qed.

Lemma includes_iff (needle s : string) :
  includes needle s = true <-> exists pre post, s = (pre ++ needle ++ post)%string.
Proof.
  split.
  - induction s as [|c r IH]; simpl.
    + rewrite orb_false_r. intros H. apply startsWith_iff in H as (post & H).
      now exists EmptyString, post.
    + intros H. apply orb_true_iff in H as [H|H].
      * apply startsWith_iff in H as (post & H). now exists EmptyString, post.
      * destruct (IH H) as (pre & post & ->). now exists (String c pre), post.
  - intros (pre & post & ->). induction pre as [|c pre IH]; simpl.
    + assert (H : startsWith needle (needle ++ post) = true)
        by (apply startsWith_iff; now exists post).
      destruct (needle ++ post)%string; simpl in *; now rewrite H.
    + rewrite IH. apply orb_true_r.
Qed.

(** A needle that occurs in a string occurs in every string the latter
    occurs in. *)
Lemma includes_transitive (a b c : string) :
  includes a b = true -> includes b c = true -> includes a c = true.
Proof.
  rewrite !includes_iff. intros (pre & post & ->) (pre' & post' & ->).
  exists (pre' ++ pre)%string, (post ++ post')%string.
  now rewrite !append_associative.
Qed.

Lemma lowerChar_idempotent (c : ascii) : lowerChar (lowerChar c) = lowerChar c.
Proof.
  destruct c as [[] [] [] [] [] [] [] []]; reflexivity.
Qed.

Lemma toLowerCase_idempotent (s : string) : toLowerCase (toLowerCase s) = toLowerCase s.
Proof.
  induction s as [|c r IH]; simpl; [reflexivity|].
  now rewrite lowerChar_idempotent, IH.
Qed.

Lemma truthy_toLowerCase (s : string) : truthy (toLowerCase s) = truthy s.
Proof. now destruct s. Qed.

Lemma filter_filter_implied {A : Type} (p q : A -> bool) (l : list A) :
  (forall x, q x = true -> p x = true) -> filter q (filter p l) = filter q l.
Proof.
  intros H. induction l as [|a l IH]; simpl; [reflexivity|].
  destruct (p a) eqn:P; simpl.
  - now rewrite IH.
  - destruct (q a) eqn:Q; [|exact IH]. apply H in Q. congruence.
Qed.

Lemma rowMatches_narrows (t t' : string) (row : record) :
  includes (toLowerCase t) (toLowerCase t') = true ->
  rowMatches t' row = true -> rowMatches t row = true.
Proof.
  intros Hsub. unfold rowMatches. rewrite !existsb_exists.
  intros ([v|] & Hin & Hv); [|discriminate]. exists (Some v). split; trivial.
  simpl in *. eapply includes_transitive; eassumption.
Qed.

(** X12.  Searching the table: an empty term keeps every row; the letter
    case of the term is immaterial; the rows kept are rows of the data, in
    their order, each with a value that contains the term without regard
    to case; and a term that contains an earlier term (without regard to
    case) finds, among the rows found for the earlier term, exactly the
    rows it finds in all the data. *)
Theorem search_is_case_blind_and_narrows (data : dataset) (t t' : string) :
  filterRows EmptyString data = data /\
  filterRows (toLowerCase t) data = filterRows t data /\
  (forall row, In row (filterRows t data) ->
               In row data /\
               (t <> EmptyString ->
                exists v, In (Some v) (values row) /\
                          includes (toLowerCase t) (toLowerCase v) = true)) /\
  (includes (toLowerCase t) (toLowerCase t') = true ->
   filterRows t' (filterRows t data) = filterRows t' data).
Proof.
  split; [reflexivity|]. split; [|split].
  - unfold filterRows. rewrite truthy_toLowerCase.
    destruct (truthy t); [|reflexivity].
    apply filter_ext. intros row. unfold rowMatches, valueMatches.
    now rewrite toLowerCase_idempotent.
  - intros row. unfold filterRows. destruct t as [|c s]; simpl.
    + intros H. split; [exact H|]. intros N. now elim N.
    + intros H. apply filter_In in H as [Hin Hm]. split; [exact Hin|]. intros _.
      unfold rowMatches in Hm. apply existsb_exists in Hm as ([v|] & Hv & Hm);
        [|discriminate].
      now exists v.
  - intros Hsub. unfold filterRows at 1 3.
    destruct (truthy t') eqn:T'.
    + unfold filterRows. destruct (truthy t); [|reflexivity].
      apply filter_filter_implied. intros row. now apply rowMatches_narrows.
    + destruct t' as [|c s]; [|discriminate]. simpl in Hsub.
      rewrite orb_false_r in Hsub. apply startsWith_iff in Hsub as (post & Hpost).
      destruct t as [|c s]; [reflexivity|]. simpl in Hpost. discriminate.
Qed.

Lemma search_is_case_blind_and_narrows_sample :
  filterRows "PLACED" (parseCSV scenarioA) = parseCSV scenarioA /\
  filterRows "Not placed" (filterRows "PLACED" (parseCSV scenarioA))
  = [[("Name", "B"); ("Status", "Not Placed")]].
Proof.
  destruct (search_is_case_blind_and_narrows (parseCSV scenarioA) "PLACED" "Not placed")
    as (_ & _ & _ & N).
  split; [reflexivity|]. rewrite N; reflexivity.
Defined.

End TableSearch.

(** ** The data table: sorting *)

Section TableSort.
Import JSString JSObject Csv DataTable Shape Scenarios.



















End TableSort.

(** ** The data table: pages *)

Section TablePages.
Import JSString JSObject Csv DataTable Shape Scenarios.

Lemma totalPages_covers (n pageSize : nat) :
  0 < pageSize -> n <= totalPages n pageSize * pageSize.
Proof.
  intros H. unfold totalPages.
  pose proof (Nat.div_mod_eq (n + pageSize - 1) pageSize) as D.
  pose proof (Nat.mod_upper_bound (n + pageSize - 1) pageSize) as M.
  nia.
Qed.

Lemma totalPages_reached (n pageSize k : nat) :
  0 < pageSize -> 1 <= k ->
  (k <= totalPages n pageSize <-> startIndex k pageSize < n).
Proof.
  intros H Hk. unfold totalPages, startIndex.
  pose proof (Nat.div_mod_eq (n + pageSize - 1) pageSize) as D.
  pose proof (Nat.mod_upper_bound (n + pageSize - 1) pageSize) as M.
  split; intros; nia.
Qed.

Lemma page_unfold (rows : dataset) (k pageSize : nat) :
  page rows k pageSize = firstn pageSize (skipn (startIndex k pageSize) rows).
Proof.
  unfold page, slice. f_equal. lia.
Qed.

Lemma page_length (rows : dataset) (k pageSize : nat) :
  List.length (page rows k pageSize)
  = Nat.min pageSize (List.length rows - startIndex k pageSize).
Proof.
  now rewrite page_unfold, length_firstn, length_skipn.
Qed.

Lemma flat_map_agree {A B : Type} (f g : A -> list B) (l : list A) :
  (forall x, In x l -> f x = g x) -> flat_map f l = flat_map g l.
Proof.
  induction l as [|a l IH]; simpl; intros H; [reflexivity|].
  rewrite (H a) by (now left). f_equal. apply IH. intros x Hx. apply H. now right.
Qed.

Lemma pages_concat (pageSize : nat) :
  0 < pageSize ->
  forall (m : nat) (rows : dataset),
    List.length rows <= m * pageSize ->
    flat_map (fun k => page rows k pageSize) (seq 1 m) = rows.
Proof.
  intros H. induction m as [|m IH]; intros rows Hlen.
  - simpl in *. destruct rows; [reflexivity|simpl in Hlen; lia].
  - rewrite <- cons_seq, <- seq_shift. cbn [flat_map].
    rewrite flat_map_concat_map, map_map, <- flat_map_concat_map.
    rewrite page_unfold. unfold startIndex at 1. simpl skipn.
    transitivity (firstn pageSize rows ++ skipn pageSize rows); [|apply firstn_skipn].
    f_equal. etransitivity; [|apply (IH (skipn pageSize rows))].
    + apply flat_map_agree. intros k Hk. apply in_seq in Hk.
      rewrite !page_unfold, skipn_skipn.
      f_equal. f_equal. unfold startIndex. nia.
    + rewrite length_skipn. lia.
Qed.

(** X14.  Pages partition the rows: with a page size of at least one row,
    every page holds at most that many rows, and the pages 1 to
    [totalPages], one after the other, are exactly the rows in their
    order. *)
Theorem pages_partition_rows (rows : dataset) (pageSize : nat) :
  0 < pageSize ->
  (forall k, List.length (page rows k pageSize) <= pageSize) /\
  flat_map (fun k => page rows k pageSize)
           (seq 1 (totalPages (List.length rows) pageSize)) = rows.
Proof.
  intros H. split.
  - intros k. rewrite page_length. lia.
  - apply pages_concat; trivial. now apply totalPages_covers.
Qed.

Lemma pages_partition_rows_sample :
  totalPages (List.length (parseCSV scenarioC)) 3 = 2 /\
  page (parseCSV scenarioC) 2 3 = [[("Company", "Not Placed")]] /\
  flat_map (fun k => page (parseCSV scenarioC) k 3) [1; 2] = parseCSV scenarioC.
Proof.
  destruct (pages_partition_rows (parseCSV scenarioC) 3) as [_ P]; [lia|].
  split; [reflexivity|]. split; [reflexivity|exact P].
Defined.

(** X15.  The page shown is empty exactly when the current page lies
    beyond the last page; and a new search term leaves the current page as
    it is, so a search that leaves fewer pages than the current page shows
    an empty page. *)
Theorem page_beyond_last_is_empty (data : dataset) (pageSize : nat) (st : State) (term : string) :
  0 < pageSize ->
  1 <= currentPage st ->
  (paginatedData data pageSize st = [] <->
   totalPages (List.length (filteredData data st)) pageSize < currentPage st) /\
  currentPage (setSearchTerm term st) = currentPage st /\
  (totalPages (List.length (filteredData data (setSearchTerm term st))) pageSize
   < currentPage st ->
   paginatedData data pageSize (setSearchTerm term st) = []).
Proof.
  intros H Hk.
  assert (E : forall s, 1 <= currentPage s ->
            (paginatedData data pageSize s = [] <->
             totalPages (List.length (filteredData data s)) pageSize < currentPage s)).
  { intros s Hs. unfold paginatedData.
    pose proof (totalPages_reached (List.length (filteredData data s)) pageSize
                  (currentPage s) H Hs) as R.
    pose proof (page_length (filteredData data s) (currentPage s) pageSize) as L.
    split.
    - intros Hempty. rewrite Hempty in L. simpl in L. lia.
    - intros Hlt. apply length_zero_iff_nil. lia. }
  split; [now apply E|]. split; [reflexivity|].
  intros Hlt. now apply E.
Qed.

Lemma page_beyond_last_is_empty_sample :
  paginatedData (parseCSV scenarioC) 2
    {| searchTerm := EmptyString; sortConfig := None; currentPage := 2 |}
  = [[("Company", "Microsoft")]; [("Company", "Not Placed")]] /\
  paginatedData (parseCSV scenarioC) 2
    (setSearchTerm "google"
       {| searchTerm := EmptyString; sortConfig := None; currentPage := 2 |}) = [] /\
  showsControls (parseCSV scenarioC) 2
    (setSearchTerm "google"
       {| searchTerm := EmptyString; sortConfig := None; currentPage := 2 |}) = false.
Proof.
  destruct (page_beyond_last_is_empty (parseCSV scenarioC) 2
              {| searchTerm := EmptyString; sortConfig := None; currentPage := 2 |}
              "google") as (_ & _ & S); [lia|simpl; lia|].
  split; [reflexivity|]. split; [|reflexivity].
  apply S. vm_compute. lia.
Defined.

(** X16.  The page buttons: with a page size of at least one row and a
    current page between 1 and [totalPages], both buttons leave it in that
    range; Next advances by one except on the last page, Previous goes
    back by one except on the first page, and both leave search and sort
    as they are. *)
Theorem page_buttons_stay_in_range (data : dataset) (pageSize : nat) (st : State) :
  0 < pageSize ->
  1 <= currentPage st <= totalPages (List.length (filteredData data st)) pageSize ->
  (1 <= currentPage (nextPage data pageSize st)
   <= totalPages (List.length (filteredData data (nextPage data pageSize st))) pageSize) /\
  (1 <= currentPage (previousPage st)
   <= totalPages (List.length (filteredData data (previousPage st))) pageSize) /\
  currentPage (nextPage data pageSize st)
  = (if currentPage st =? totalPages (List.length (filteredData data st)) pageSize
     then currentPage st else currentPage st + 1) /\
  currentPage (previousPage st)
  = (if currentPage st =? 1 then 1 else currentPage st - 1) /\
  filteredData data (nextPage data pageSize st) = filteredData data st /\
  filteredData data (previousPage st) = filteredData data st.
Proof.
  intros H [Hlo Hhi].
  assert (Fn : filteredData data (nextPage data pageSize st) = filteredData data st)
    by reflexivity.
  assert (Fp : filteredData data (previousPage st) = filteredData data st)
    by reflexivity.
  rewrite Fn, Fp. cbn [currentPage nextPage previousPage].
  set (T := totalPages (List.length (filteredData data st)) pageSize) in *.
  repeat split; try lia.
  - destruct (Nat.eqb_spec (currentPage st) T); lia.
  - destruct (Nat.eqb_spec (currentPage st) 1); lia.
Qed.

Lemma page_buttons_stay_in_range_sample :
  currentPage (nextPage (parseCSV scenarioC) 3 initial) = 2 /\
  currentPage (nextPage (parseCSV scenarioC) 3 (nextPage (parseCSV scenarioC) 3 initial)) = 2 /\
  currentPage (previousPage initial) = 1.
Proof.
  destruct (page_buttons_stay_in_range (parseCSV scenarioC) 3 initial)
    as (_ & _ & N & P & _); [lia|vm_compute; lia|].
  destruct (page_buttons_stay_in_range (parseCSV scenarioC) 3
              (nextPage (parseCSV scenarioC) 3 initial))
    as (_ & _ & N2 & _); [lia|vm_compute; lia|].
  rewrite N2, N, P. repeat split.
Defined.

End TablePages.

(** ** More on the insight generators *)

Section InsightShape.
Import JSString JSObject JSNumber Csv Traced Insights Spec Shape Scenarios.

(** X17.  The academic generator returns exactly the catalogue entries
    whose gate finds a record with a matching key, in catalogue order:
    the ids of the result are the ids of the gates that hold, in the order
    of the catalogue; so no id occurs twice and there are at most seven
    entries. *)
Theorem academic_insights_follow_gates (data : dataset) :
  map id (result (AcademicInsights.analyse data))
  = map fst (filter (fun gate => found (findRecord (snd gate) data))
                     AcademicInsights.gates) /\
  NoDup (map id (result (AcademicInsights.analyse data))) /\
  List.length (result (AcademicInsights.analyse data)) <= 7.
Proof.
  assert (E : map id (result (AcademicInsights.analyse data))
              = map fst (filter (fun gate => found (findRecord (snd gate) data))
                                 AcademicInsights.gates)).
  { rewrite analyse_result.
    unfold AcademicInsights.fixedBlock, AcademicInsights.performanceBlock,
      AcademicInsights.internshipBlock, AcademicInsights.cgpaBlock,
      AcademicInsights.gates.
    cbn [filter snd].
    destruct (findRecord AcademicInsights.isCgpaKey data);
      destruct (findRecord AcademicInsights.isInternshipKey data);
      destruct (findRecord AcademicInsights.isAcademicPerfKey data);
      destruct (findRecord AcademicInsights.isCommunicationKey data);
      destruct (findRecord AcademicInsights.isProjectKey data);
      destruct (findRecord AcademicInsights.isIqKey data);
      destruct (findRecord AcademicInsights.isExtraCurricularKey data);
      reflexivity. }
  split; [exact E|].
  assert (N : NoDup (map fst AcademicInsights.gates)).
  { unfold AcademicInsights.gates. simpl.
    repeat (constructor; [simpl; intuition discriminate|]). constructor. }
  assert (S : forall (f : string * (string -> bool) -> bool) l,
             NoDup (map fst l) ->
             NoDup (map fst (filter f l)) /\
             List.length (filter f l) <= List.length l).
  { intros f l. induction l as [|g l IH]; simpl; intros Hl; [split; [constructor|lia]|].
    inversion Hl as [|? ? Hg Hrest]; subst. destruct (IH Hrest) as [IH1 IH2].
    destruct (f g); simpl; [|split; [exact IH1|lia]].
    split; [|lia]. constructor; [|exact IH1].
    intros Hin. apply Hg. apply in_map_iff in Hin as (x & Hx & Hin).
    apply filter_In in Hin as [Hin _]. rewrite <- Hx. now apply in_map. }
  destruct (S (fun gate => found (findRecord (snd gate) data))
              AcademicInsights.gates N) as [S1 S2].
  split.
  - rewrite E. exact S1.
  - rewrite <- (length_map id), E, length_map. exact S2.
Qed.

(** The ids of the placement generator, block by block. *)
Lemma placement_ids (data : dataset) :
  map id (PlacementInsights.analyse data)
  = (if 1 <? JSSet.size (JSSet.ofList JSSet.valueEqb
                           (map PlacementInsights.departmentOf data))
     then ["1"] else [])
    ++ (if found (findRecord PlacementInsights.isSalaryKey data) then ["2"] else [])
    ++ (if found (findRecord PlacementInsights.isGenderKey data) then ["3"] else [])
    ++ (if 0 <? List.length (filter JSValue.truthy (map PlacementInsights.companyOf data))
        then ["4"] else [])
    ++ (if found (findRecord PlacementInsights.isCgpaKey data) then ["5"] else [])
    ++ ["6"].
Proof.
  unfold PlacementInsights.analyse, PlacementInsights.departmentBlock,
    PlacementInsights.companiesBlock, PlacementInsights.fixedBlock,
    AcademicInsights.fixedBlock.
  destruct (1 <? _);
    destruct (findRecord PlacementInsights.isSalaryKey data);
    destruct (findRecord PlacementInsights.isGenderKey data);
    destruct (0 <? _);
    destruct (findRecord PlacementInsights.isCgpaKey data);
    reflexivity.
Qed.

Lemma value_eqb_iff (a b : JSValue.value) : JSSet.valueEqb a b = true <-> a = b.
Proof.
  destruct a as [x|], b as [y|]; simpl; try (split; [discriminate|congruence]).
  - rewrite String.eqb_eq. split; congruence.
  - tauto.
Qed.

Lemma value_set_add (s : list JSValue.value) (x y : JSValue.value) :
  In y (JSSet.add JSSet.valueEqb s x) <-> In y s \/ y = x.
Proof.
  unfold JSSet.add, JSSet.has. destruct (existsb (JSSet.valueEqb x) s) eqn:E.
  - apply existsb_exists in E as (z & Hz & Ez). apply value_eqb_iff in Ez. subst z.
    intuition congruence.
  - rewrite in_app_iff. simpl. intuition congruence.
Qed.

Lemma value_set_add_NoDup (s : list JSValue.value) (x : JSValue.value) :
  NoDup s -> NoDup (JSSet.add JSSet.valueEqb s x).
Proof.
  intros H. unfold JSSet.add, JSSet.has.
  destruct (existsb (JSSet.valueEqb x) s) eqn:E; trivial.
  apply NoDup_app; trivial.
  - constructor; [tauto|constructor].
  - intros y Hy [Hxy|[]]. subst y.
    assert (existsb (JSSet.valueEqb x) s = true).
    { apply existsb_exists. exists x. split; trivial. now apply value_eqb_iff. }
    congruence.
Qed.

Lemma value_set_fold (l : list JSValue.value) :
  forall acc, NoDup acc ->
    NoDup (fold_left (JSSet.add JSSet.valueEqb) l acc) /\
    forall y, In y (fold_left (JSSet.add JSSet.valueEqb) l acc) <-> In y acc \/ In y l.
Proof.
  induction l as [|x l IH]; intros acc Hacc; simpl.
  - split; trivial. intros y. tauto.
  - destruct (IH _ (value_set_add_NoDup acc x Hacc)) as [Hn Hin]. split; trivial.
    intros y. rewrite Hin, value_set_add. intuition congruence.
Qed.

(** A set built from a list has more than one element exactly when the
    list holds two different values. *)
Lemma value_set_two (l : list JSValue.value) :
  1 < JSSet.size (JSSet.ofList JSSet.valueEqb l) <->
  exists a b, In a l /\ In b l /\ a <> b.
Proof.
  unfold JSSet.size, JSSet.ofList.
  destruct (value_set_fold l [] (NoDup_nil _)) as [Hn Hin].
  set (s := fold_left (JSSet.add JSSet.valueEqb) l []) in *.
  assert (Hl : forall y, In y s <-> In y l) by (intros y; rewrite Hin; simpl; tauto).
  split.
  - intros H. destruct s as [|a [|b rest]]; simpl in H; try lia.
    exists a, b. repeat split.
    + apply Hl. now left.
    + apply Hl. right. now left.
    + inversion Hn as [|? ? Ha _]; subst. intros ->. apply Ha. now left.
  - intros (a & b & Ha & Hb & Hab). apply Hl in Ha, Hb.
    destruct s as [|x [|y rest]]; simpl in *; try lia; try tauto.
    destruct Ha as [<-|[]], Hb as [<-|[]]. congruence.
Qed.

(** X18.  The placement generator always ends with its ungated entry, its
    ids come in catalogue order, and the department entry appears exactly
    when two records differ in their department value, a missing value
    counting as a value of its own: one department and one record without
    any are two departments. *)
Theorem placement_insights_count_missing_department (data : dataset) :
  (exists earlier, PlacementInsights.analyse data = earlier ++ [PlacementInsights.skillsInsight]) /\
  (exists present,
      map id (PlacementInsights.analyse data)
      = filter (fun i => existsb (String.eqb i) present) ["1"; "2"; "3"; "4"; "5"; "6"]) /\
  (In "1" (map id (PlacementInsights.analyse data)) <->
   exists r1 r2, In r1 data /\ In r2 data /\
                 PlacementInsights.departmentOf r1 <> PlacementInsights.departmentOf r2).
Proof.
  split; [|split].
  - unfold PlacementInsights.analyse. now eexists.
  - exists (map id (PlacementInsights.analyse data)). rewrite placement_ids.
    destruct (1 <? _);
      destruct (findRecord PlacementInsights.isSalaryKey data);
      destruct (findRecord PlacementInsights.isGenderKey data);
      destruct (0 <? _);
      destruct (findRecord PlacementInsights.isCgpaKey data);
      reflexivity.
  - rewrite placement_ids.
    assert (G : In "1" ((if 1 <? JSSet.size (JSSet.ofList JSSet.valueEqb
                                     (map PlacementInsights.departmentOf data))
                         then ["1"] else [])
                        ++ (if found (findRecord PlacementInsights.isSalaryKey data) then ["2"] else [])
                        ++ (if found (findRecord PlacementInsights.isGenderKey data) then ["3"] else [])
                        ++ (if 0 <? List.length (filter JSValue.truthy
                                                   (map PlacementInsights.companyOf data))
                            then ["4"] else [])
                        ++ (if found (findRecord PlacementInsights.isCgpaKey data) then ["5"] else [])
                        ++ ["6"])
                <-> 1 < JSSet.size (JSSet.ofList JSSet.valueEqb
                                      (map PlacementInsights.departmentOf data))).
    { rewrite <- Nat.ltb_lt.
      destruct (1 <? _);
        destruct (findRecord PlacementInsights.isSalaryKey data);
        destruct (findRecord PlacementInsights.isGenderKey data);
        destruct (0 <? _);
        destruct (findRecord PlacementInsights.isCgpaKey data);
        simpl; intuition discriminate. }
    rewrite G, value_set_two. split.
    + intros (a & b & Ha & Hb & Hab).
      apply in_map_iff in Ha as (r1 & <- & Hr1). apply in_map_iff in Hb as (r2 & <- & Hr2).
      now exists r1, r2.
    + intros (r1 & r2 & Hr1 & Hr2 & Hd).
      exists (PlacementInsights.departmentOf r1), (PlacementInsights.departmentOf r2).
      repeat split; trivial; now apply in_map.
Qed.

Lemma placement_insights_count_missing_department_sample :
  map PlacementInsights.departmentOf (parseCSV oneDepartment) = [Some "CS"; None] /\
  In "1" (map id (PlacementInsights.analyse (parseCSV oneDepartment))).
Proof.
  split; [reflexivity|].
  apply (placement_insights_count_missing_department (parseCSV oneDepartment)).
  exists [("Name", "A"); ("Department", "CS")], [("Name", "B"); ("Department", "")].
  repeat split.
  - vm_compute. tauto.
  - vm_compute. tauto.
  - vm_compute. discriminate.
Defined.

End InsightShape.

(** ** Numbers that are not numbers *)

Section NaNFacts.
Import JSString JSObject JSNumber Csv Traced Insights Spec Shape Scenarios.

Lemma SFeqb_refl_iff (f : spec_float) : SFeqb f f = false <-> f = S754_nan.
Proof.
  unfold SFeqb. destruct f as [s|s| |s m e]; simpl.
  - split; discriminate.
  - destruct s; split; discriminate.
  - tauto.
  - destruct s; rewrite Z.compare_refl, Pos.compare_cont_refl; simpl; split; discriminate.
Qed.

(** A Number is [NaN] exactly when its binary64 value is. *)
Lemma isNaN_iff (x : number) : isNaN x = true <-> Prim2SF x = S754_nan.
Proof.
  unfold isNaN, is_nan. rewrite negb_true_iff, FloatAxioms.eqb_spec.
  apply SFeqb_refl_iff.
Qed.

Lemma isNaN_add_left (x y : number) : isNaN x = true -> isNaN (x + y)%float = true.
Proof.
  rewrite !isNaN_iff, add_spec. intros ->. reflexivity.
Qed.

Lemma isNaN_add_right (x y : number) : isNaN y = true -> isNaN (x + y)%float = true.
Proof.
  rewrite !isNaN_iff, add_spec. intros ->. unfold SF64add, SFadd.
  now destruct (Prim2SF x).
Qed.

Lemma isNaN_div_left (x y : number) : isNaN x = true -> isNaN (x / y)%float = true.
Proof.
  rewrite !isNaN_iff, div_spec. intros ->. reflexivity.
Qed.

Lemma isNaN_sum (f : record -> number) (l : dataset) :
  forall start : number,
    (isNaN start = true \/ exists r, In r l /\ isNaN (f r) = true) ->
    isNaN (fold_left (fun sum r => (sum + f r)%float) l start) = true.
Proof.
  induction l as [|a l IH]; intros start H; simpl.
  - destruct H as [H|(r & [] & _)]. exact H.
  - apply IH. destruct H as [H|(r & [<-|Hr] & Hn)].
    + left. now apply isNaN_add_left.
    + left. now apply isNaN_add_right.
    + right. now exists r.
Qed.

(** X19.  One unparsable CGPA spoils the insight: when some record has a
    key containing cgpa or gpa and some record that passes the placement
    test has a CGPA text whose [parseFloat] is [NaN], the value
    interpolated into the entry titled CGPA Impact on Placement Success is
    [NaN], whatever the other records hold. *)
Theorem unparsable_cgpa_makes_insight_average_nan (data : dataset) :
  (exists record k, In record data /\ In k (keys record) /\
                    AcademicInsights.isCgpaKey k = true) ->
  (exists record, In record data /\ AcademicInsights.isPlaced record = true /\
                  isNaN (AcademicInsights.cgpaNumber record) = true) ->
  exists entry avg,
    In entry (result (AcademicInsights.generateInsights data [])) /\
    title entry = "CGPA Impact on Placement Success" /\
    interpolated entry = [avg] /\
    isNaN avg = true.
Proof.
  intros Hkey (bad & Hbad & Hplaced & Hnan).
  assert (Hdata : AcademicInsights.generateInsights data [] = AcademicInsights.analyse data).
  { unfold AcademicInsights.generateInsights. now destruct data. }
  rewrite Hdata.
  apply findRecord_some in Hkey as (rec & Hfound).
  set (placed := filter AcademicInsights.isPlaced data).
  set (avg := (fold_left (fun sum record => (sum + AcademicInsights.cgpaNumber record)%float)
                         placed 0%float / Num (List.length placed))%float).
  exists (AcademicInsights.cgpaInsight avg), avg. repeat split.
  - apply analyse_keeps_cgpa. unfold AcademicInsights.cgpaBlock. rewrite Hfound.
    simpl. now left.
  - apply isNaN_div_left, isNaN_sum. right. exists bad. split; trivial.
    apply filter_In. tauto.
Qed.

Lemma unparsable_cgpa_makes_insight_average_nan_sample :
  Dashboard.averageCGPA (Dashboard.metrics (parseCSV unparsableCgpa)) = 8.5%float /\
  exists entry avg,
    In entry (result (AcademicInsights.generateInsights (parseCSV unparsableCgpa) [])) /\
    title entry = "CGPA Impact on Placement Success" /\
    interpolated entry = [avg] /\
    isNaN avg = true.
Proof.
  split; [reflexivity|].
  apply (unparsable_cgpa_makes_insight_average_nan (parseCSV unparsableCgpa)).
  - exists [("Name", "A"); ("CGPA", "8.5"); ("Placement", "Placed")], "CGPA".
    split; [vm_compute; tauto|]. split; [vm_compute; tauto|reflexivity].
  - exists [("Name", "B"); ("CGPA", "N/A"); ("Placement", "Placed")].
    split; [vm_compute; tauto|]. split; reflexivity.
Defined.

Lemma or_truthy (a b : JSValue.value) (s : string) :
  a = Some s -> truthy s = true -> JSValue.or a b = Some s.
Proof.
  intros -> H. unfold JSValue.or. simpl. now rewrite H.
Qed.

Lemma academic_placed_is_placed (r : record) :
  AcademicInsights.isPlaced r = true -> Dashboard.isPlaced r = true.
Proof.
  unfold AcademicInsights.isPlaced, Dashboard.isPlaced, Dashboard.placementOf.
  destruct (JSValue.or (prop r "Placement") (prop r "Placed")) as [p|] eqn:E;
    [|discriminate].
  intros H. apply andb_true_iff in H as [Ht Hc].
  rewrite (or_truthy _ (prop r "Status") p eq_refl Ht), Ht. simpl.
  apply orb_true_iff in Hc as [Hc|Hc]; rewrite Hc; auto using orb_true_r.
Qed.

Lemma academic_internship_is_internship (r : record) :
  AcademicInsights.hasInternship r = true -> Dashboard.hasInternship r = true.
Proof.
  unfold AcademicInsights.hasInternship, Dashboard.hasInternship, Dashboard.internshipOf.
  destruct (JSValue.or (prop r "Internship Experience") (prop r "Internship")) as [i|] eqn:E;
    [|discriminate].
  intros H. apply andb_true_iff in H as [Ht Hc].
  rewrite (or_truthy _ (prop r "internship") i eq_refl Ht), Ht. simpl.
  apply orb_true_iff in Hc as [Hc|Hc]; rewrite Hc; auto using orb_true_r.
Qed.

Lemma filter_length_implied {A : Type} (p q : A -> bool) (l : list A) :
  (forall x, p x = true -> q x = true) ->
  List.length (filter p l) <= List.length (filter q l).
Proof.
  intros H. induction l as [|a l IH]; simpl; [lia|].
  destruct (p a) eqn:P.
  - rewrite (H a P). simpl. lia.
  - destruct (q a); simpl; lia.
Qed.

(** X20.  The insight generator is stricter than the metrics: every record
    it takes as placed the metrics count as placed, and every record it
    takes as having an internship the metrics count as well; so the
    subsets its averages run over are never larger than the counts of the
    summary. *)
Theorem insight_subsets_within_metric_counts (data : dataset) :
  (forall r, AcademicInsights.isPlaced r = true -> Dashboard.isPlaced r = true) /\
  (forall r, AcademicInsights.hasInternship r = true -> Dashboard.hasInternship r = true) /\
  List.length (filter AcademicInsights.isPlaced data)
  <= Dashboard.placedStudents (Dashboard.metrics data) /\
  List.length (filter AcademicInsights.hasInternship data)
  <= Dashboard.withInternship (Dashboard.metrics data).
Proof.
  split; [exact academic_placed_is_placed|].
  split; [exact academic_internship_is_internship|].
  rewrite metrics_fields. simpl. split; apply filter_length_implied.
  - exact academic_placed_is_placed.
  - exact academic_internship_is_internship.
Qed.

End NaNFacts.
